(** * flume_flow_analysis: the acquisition pipeline of [record_data.py]

    A shallow embedding of the serial logger: the four field patterns and
    the date prefix test, [parse_block], [init_csv], the read loop of
    [log_data] and the two lists it shares with [live_plot].

    Modelling scope.  A line is a [string]: a sequence of code points
    below 256.  A Python [float] is an IEEE binary64 value with exact
    round-to-nearest-even conversion from decimal text and the shortest
    round-tripping [repr]; [int] has the interpreter's default limit of
    4300 digits.  Python exceptions are an explicit outcome. *)

From Stdlib Require Import ZArith List String Ascii Bool Lia DecimalString.
Import ListNotations.
Local Open Scope string_scope.
Local Open Scope Z_scope.

(** ** Exceptions *)

Inductive exn : Type := ValueError.

Inductive outcome (A : Type) : Type :=
| Raised (e : exn)
| Returned (a : A).
Arguments Raised {A} e.
Arguments Returned {A} a.

Definition bind {A B : Type} (m : outcome A) (f : A -> outcome B) : outcome B :=
  match m with
  | Raised e => Raised e
  | Returned a => f a
  end.

Notation "x <- m ;; k" := (bind m (fun x => k))
  (at level 61, m at next level, right associativity).

(** ** Character classes of [re] on code points below 256 *)

Definition code (c : ascii) : Z := Z.of_nat (nat_of_ascii c).

(** [\d] *)
Definition is_digit (c : ascii) : bool := (48 <=? code c) && (code c <=? 57).

(** [[\d.]] *)
Definition is_digit_or_dot (c : ascii) : bool := is_digit c || (code c =? 46).

(** [\s], and the characters [str.strip()] removes: 9..13, 28..32, 133, 160. *)
Definition is_space (c : ascii) : bool :=
  let n := code c in
  ((9 <=? n) && (n <=? 13)) || ((28 <=? n) && (n <=? 32)) || (n =? 133) || (n =? 160).

Definition digit_val (c : ascii) : Z := code c - 48.

(** ** Matching primitives *)

(** The longest prefix of [s] whose characters satisfy [p], and the rest. *)
Fixpoint span (p : ascii -> bool) (s : string) : string * string :=
  match s with
  | EmptyString => (EmptyString, EmptyString)
  | String c s' =>
      if p c then let (a, r) := span p s' in (String c a, r)
      else (EmptyString, s)
  end.

(** A literal: the rest of [s] after the prefix [pat]. *)
Fixpoint lit (pat s : string) : option string :=
  match pat with
  | EmptyString => Some s
  | String c pat' =>
      match s with
      | EmptyString => None
      | String d s' => if Ascii.eqb c d then lit pat' s' else None
      end
  end.

(** [[class]+] and [[class]*], greedy.  In the four patterns below every
    class is followed by a character outside the class or ends the pattern,
    so the greedy choice is the only one the backtracking matcher can take. *)
Definition plus (p : ascii -> bool) (s : string) : option (string * string) :=
  match span p s with
  | (EmptyString, _) => None
  | (a, r) => Some (a, r)
  end.

Definition star (p : ascii -> bool) (s : string) : string := snd (span p s).

(** [pattern.search]: the match at the leftmost position that has one. *)
Fixpoint search {A : Type} (at_start : string -> option A) (s : string) : option A :=
  match at_start s with
  | Some m => Some m
  | None =>
      match s with
      | EmptyString => None
      | String _ s' => search at_start s'
      end
  end.

Definition obind {A B : Type} (m : option A) (f : A -> option B) : option B :=
  match m with
  | Some a => f a
  | None => None
  end.

(** ** Regex patterns *)

(** [UP:(?P<up>[\d.]+),DN:(?P<dn>[\d.]+),Q=(?P<q>\d+)] at the start of [s]:
    the three groups. *)
Definition UP_DN_Q_at (s : string) : option (string * string * string) :=
  obind (lit "UP:" s) (fun r =>
  obind (plus is_digit_or_dot r) (fun '(up, r) =>
  obind (lit ",DN:" r) (fun r =>
  obind (plus is_digit_or_dot r) (fun '(dn, r) =>
  obind (lit ",Q=" r) (fun r =>
  obind (plus is_digit r) (fun '(q, _) =>
  Some (up, dn, q))))))).

(** [KEY\s*(?P<g>[\d.]+)] at the start of [s]: the group. *)
Definition keyed_at (key : string) (s : string) : option string :=
  obind (lit key s) (fun r =>
  obind (plus is_digit_or_dot (star is_space r)) (fun '(g, _) => Some g)).

Definition FLOW_at : string -> option string := keyed_at "FLOW:".
Definition VEL_at : string -> option string := keyed_at "VEL:".
Definition FVEL_at : string -> option string := keyed_at "FVEL:".

Definition UP_DN_Q_RE := search UP_DN_Q_at.
Definition FLOW_RE := search FLOW_at.
Definition VEL_RE := search VEL_at.
Definition FVEL_RE := search FVEL_at.

(** [re.match(r"\d{2}-\d{2}-\d{2}", line)] as a truth value. *)
Definition date_prefix (line : string) : bool :=
  match line with
  | String a (String b (String h1 (String c (String d (String h2 (String e (String f _))))))) =>
      is_digit a && is_digit b && Ascii.eqb h1 "-" && is_digit c && is_digit d
      && Ascii.eqb h2 "-" && is_digit e && is_digit f
  | _ => false
  end.

(** [str.startswith] *)
Definition startswith (pre s : string) : bool :=
  match lit pre s with Some _ => true | None => false end.

(** ** [datetime]: [strptime] and [strftime] for the two fixed formats *)

Record datetime : Type := mkDatetime {
  year : Z; month : Z; day : Z; hour : Z; minute : Z; second : Z
}.

(** A backtracking matcher: the ways to match at the start of the text, in
    the order the regex engine tries them, each with the value read and the
    text left. *)
Definition matcher (A : Type) : Type := string -> list (A * string).

Definition alt {A : Type} (p q : matcher A) : matcher A := fun s => (p s ++ q s)%list.

Definition andthen {A B : Type} (p : matcher A) (f : A -> matcher B) : matcher B :=
  fun s => flat_map (fun '(a, r) => f a r) (p s).

Definition char_if (p : ascii -> bool) : matcher ascii :=
  fun s => match s with
           | String c r => if p c then [(c, r)] else []
           | EmptyString => []
           end.

Definition between (lo hi : Z) (c : ascii) : bool :=
  is_digit c && (lo <=? digit_val c) && (digit_val c <=? hi).

(** One digit in [lo1..hi1] then one in [lo2..hi2], read as a number. *)
Definition two (lo1 hi1 lo2 hi2 : Z) : matcher Z :=
  andthen (char_if (between lo1 hi1)) (fun a =>
  andthen (char_if (between lo2 hi2)) (fun b r => [(10 * digit_val a + digit_val b, r)])).

Definition one (lo hi : Z) : matcher Z :=
  andthen (char_if (between lo hi)) (fun a r => [(digit_val a, r)]).

Definition skip (p : ascii -> bool) : matcher unit :=
  andthen (char_if p) (fun _ r => [(tt, r)]).

(** [%d]: [3[0-1]|[1-2]\d|0[1-9]|[1-9]| [1-9]] *)
Definition directive_d : matcher Z :=
  alt (two 3 3 0 1) (alt (two 1 2 0 9) (alt (two 0 0 1 9) (alt (one 1 9)
      (andthen (skip (Ascii.eqb " ")) (fun _ => one 1 9))))).

(** [%m]: [1[0-2]|0[1-9]|[1-9]] *)
Definition directive_m : matcher Z :=
  alt (two 1 1 0 2) (alt (two 0 0 1 9) (one 1 9)).

(** [%y]: [\d\d] *)
Definition directive_y : matcher Z := two 0 9 0 9.

(** [%H]: [2[0-3]|[0-1]\d|\d] *)
Definition directive_H : matcher Z :=
  alt (two 2 2 0 3) (alt (two 0 1 0 9) (one 0 9)).

(** [%M]: [[0-5]\d|\d] *)
Definition directive_M : matcher Z := alt (two 0 5 0 9) (one 0 9).

(** [%S]: [6[0-1]|[0-5]\d|\d] *)
Definition directive_S : matcher Z :=
  alt (two 6 6 0 1) (alt (two 0 5 0 9) (one 0 9)).

(** The blank of the format is [\s+]; what follows it starts with a digit,
    so only the greedy match can succeed. *)
Definition blanks : matcher unit :=
  fun s => match plus is_space s with
           | Some (_, r) => [(tt, r)]
           | None => []
           end.

Definition dash : matcher unit := skip (Ascii.eqb "-").
Definition colon : matcher unit := skip (Ascii.eqb ":").

(** The regex of the format ["%d-%m-%y %H:%M:%S"]. *)
Definition format_regex : matcher (Z * Z * Z * Z * Z * Z) :=
  andthen directive_d (fun d =>
  andthen dash (fun _ =>
  andthen directive_m (fun m =>
  andthen dash (fun _ =>
  andthen directive_y (fun y =>
  andthen blanks (fun _ =>
  andthen directive_H (fun hh =>
  andthen colon (fun _ =>
  andthen directive_M (fun mi =>
  andthen colon (fun _ =>
  andthen directive_S (fun ss r => [((d, m, y, hh, mi, ss), r)]))))))))))).

Definition is_leap (y : Z) : bool :=
  (y mod 4 =? 0) && (negb (y mod 100 =? 0) || (y mod 400 =? 0)).

Definition days_in_month (y m : Z) : Z :=
  if m =? 2 then (if is_leap y then 29 else 28)
  else if (m =? 4) || (m =? 6) || (m =? 9) || (m =? 11) then 30
  else 31.

(** [datetime.strptime(line, "%d-%m-%y %H:%M:%S")]: the first match of the
    format's regex must consume the whole text; a two-digit year up to 68 is
    in 2000..2068, the others in 1969..1999; the [datetime] constructor
    refuses a day the month does not have and a second above 59. *)
Definition strptime (line : string) : outcome datetime :=
  match format_regex line with
  | ((d, m, y, hh, mi, ss), EmptyString) :: _ =>
      let yy := if y <=? 68 then 2000 + y else 1900 + y in
      if (d <=? days_in_month yy m) && (ss <=? 59)
      then Returned (mkDatetime yy m d hh mi ss)
      else Raised ValueError
  | _ => Raised ValueError
  end.

Definition digit_char (d : Z) : ascii := ascii_of_nat (48 + Z.to_nat (d mod 10)).

Definition pad2 (n : Z) : string :=
  String (digit_char (n / 10)) (String (digit_char n) EmptyString).

Definition pad4 (n : Z) : string :=
  String (digit_char (n / 1000)) (String (digit_char (n / 100)) (pad2 n)).

(** [t.strftime("%Y-%m-%d %H:%M:%S")], for the four-digit years [strptime]
    produces. *)
Definition strftime (t : datetime) : string :=
  pad4 (year t) ++ "-" ++ pad2 (month t) ++ "-" ++ pad2 (day t) ++ " "
  ++ pad2 (hour t) ++ ":" ++ pad2 (minute t) ++ ":" ++ pad2 (second t).

(** ** Numbers: [float], [int] and their text *)

(** A binary64 value: [Ffin neg m e] is [(-1)^neg * m * 2^e], with [m = 0]
    and [e = 0] for zero, [2^52 <= m < 2^53] for a normal number and
    [e = -1074] for a subnormal one. *)
Inductive pyfloat : Type :=
| Fnan
| Finf (neg : bool)
| Ffin (neg : bool) (m e : Z).

Definition pyfloat_eqb (x y : pyfloat) : bool :=
  match x, y with
  | Fnan, Fnan => true
  | Finf a, Finf b => Bool.eqb a b
  | Ffin a m e, Ffin b m' e' => Bool.eqb a b && (m =? m') && (e =? e')
  | _, _ => false
  end.

(** The quotient [num / den] rounded to the nearest integer, ties to even. *)
Definition round_half_even (num den : Z) : Z :=
  let q := num / den in
  let r := num mod den in
  if 2 * r <? den then q
  else if den <? 2 * r then q + 1
  else if Z.even q then q else q + 1.

(** The binary64 value nearest to [n / d] ([0 <= n], [0 < d]), ties to even;
    infinity beyond the largest finite value. *)
Definition binary64_of_ratio (n d : Z) : pyfloat :=
  if n =? 0 then Ffin false 0 0 else
  let g := Z.log2 n - Z.log2 d in
  let g := if n * 2 ^ Z.max 0 (- g) <? d * 2 ^ Z.max 0 g then g - 1 else g in
  let e := Z.max (g - 52) (-1074) in
  let m := round_half_even (n * 2 ^ Z.max 0 (- e)) (d * 2 ^ Z.max 0 e) in
  let '(m, e) := if m =? 2 ^ 53 then (2 ^ 52, e + 1) else (m, e) in
  if 971 <? e then Finf false
  else if m =? 0 then Ffin false 0 0
  else Ffin false m e.

(** The number a run of decimal digits denotes. *)
Fixpoint dec_val (acc : Z) (s : string) : Z :=
  match s with
  | EmptyString => acc
  | String c s' => dec_val (10 * acc + digit_val c) s'
  end.

Definition is_empty (s : string) : bool :=
  match s with EmptyString => true | _ => false end.

(** [float(text)] for the texts the patterns capture, runs of digits and
    dots: digits with at most one dot and at least one digit are a number,
    anything else is a [ValueError]. *)
Definition py_float (text : string) : outcome pyfloat :=
  let (ip, r) := span is_digit text in
  match r with
  | EmptyString =>
      if is_empty ip then Raised ValueError
      else Returned (binary64_of_ratio (dec_val 0 ip) 1)
  | String c f =>
      if code c =? 46 then
        let (fp, r') := span is_digit f in
        if is_empty r' && negb (is_empty ip && is_empty fp)
        then Returned (binary64_of_ratio (dec_val 0 (ip ++ fp))
                         (10 ^ Z.of_nat (String.length fp)))
        else Raised ValueError
      else Raised ValueError
  end.

(** [sys.int_info.default_max_str_digits] *)
Definition max_str_digits : Z := 4300.

(** [int(text)] for a run of digits: the number, or a [ValueError] when the
    run has more digits than the interpreter's limit on the conversion of a
    text to an [int]. *)
Definition py_int (text : string) : outcome Z :=
  if max_str_digits <? Z.of_nat (String.length text) then Raised ValueError
  else Returned (dec_val 0 text).

(** [str(n)] *)
Definition str_int (n : Z) : string := NilZero.string_of_int (Z.to_int n).

(** [n / d < 10^p] *)
Definition below_pow10 (n d p : Z) : bool :=
  n * 10 ^ Z.max 0 (- p) <? d * 10 ^ Z.max 0 p.

Fixpoint find_decpt (fuel : nat) (n d p : Z) : Z :=
  match fuel with
  | O => p
  | S fuel' => if below_pow10 n d p then p else find_decpt fuel' n d (p + 1)
  end.

(** The position of the decimal point: the [p] with
    [10^(p-1) <= n / d < 10^p]. *)
Definition decpt (n d : Z) : Z :=
  find_decpt 8 n d ((Z.log2 n - Z.log2 d) * 30103 / 100000 - 1).

(** The [k]-digit decimal nearest to [n / d]: its digits as a number and
    its decimal point position. *)
Definition nearest_digits (n d p k : Z) : Z * Z :=
  let s := k - p in
  let D := round_half_even (n * 10 ^ Z.max 0 s) (d * 10 ^ Z.max 0 (- s)) in
  if D =? 10 ^ k then (10 ^ (k - 1), p + 1) else (D, p).

(** The other [k]-digit decimal next to [n / d], on the far side of it. *)
Definition other_digits (n d p k : Z) : Z * Z :=
  let s := k - p in
  let num := n * 10 ^ Z.max 0 s in
  let den := d * 10 ^ Z.max 0 (- s) in
  let D := if round_half_even num den =? num / den then num / den + 1 else num / den in
  if D =? 10 ^ k then (10 ^ (k - 1), p + 1) else (D, p).

(** The [k]-digit decimal with digits [D] and point position [p] converts
    to [x]. *)
Definition converts_to (x : pyfloat) (D p k : Z) : bool :=
  pyfloat_eqb (binary64_of_ratio (D * 10 ^ Z.max 0 (p - k)) (10 ^ Z.max 0 (k - p))) x.

(** The shortest decimal, of [k] digits or more, that converts back to [x],
    and of those the nearest to [x]: with [k] digits it is one of the two
    decimals next to [x]. *)
Fixpoint shortest (fuel : nat) (x : pyfloat) (n d p k : Z) : Z * Z * Z :=
  let (D, p') := nearest_digits n d p k in
  match fuel with
  | O => (D, p', k)
  | S fuel' =>
      if converts_to x D p' k then (D, p', k)
      else
        let (D2, p2) := other_digits n d p k in
        if converts_to x D2 p2 k then (D2, p2, k)
        else shortest fuel' x n d p (k + 1)
  end.

Fixpoint zeros (n : nat) : string :=
  match n with
  | O => EmptyString
  | S n' => String "0" (zeros n')
  end.

Definition str_nat (n : Z) : string := NilZero.string_of_uint (N.to_uint (Z.to_N n)).

(** The text of a positive finite value from its digits and decimal point
    position, as [repr] lays it out: exponent notation when the point
    position is at most -4 or above 16, positional notation otherwise. *)
Definition layout (digits : string) (p : Z) : string :=
  let k := Z.of_nat (String.length digits) in
  if (p <=? -4) || (16 <? p) then
    let x := p - 1 in
    let mant :=
      match digits with
      | String c EmptyString => digits
      | String c rest => String c (String "." rest)
      | EmptyString => digits
      end in
    mant ++ "e" ++ (if x <? 0 then "-" else "+")
         ++ (if Z.abs x <? 10 then "0" else "") ++ str_nat (Z.abs x)
  else if p <=? 0 then "0." ++ zeros (Z.to_nat (- p)) ++ digits
  else if p <? k then
    substring 0 (Z.to_nat p) digits ++ "."
      ++ substring (Z.to_nat p) (Z.to_nat (k - p)) digits
  else digits ++ zeros (Z.to_nat (p - k)) ++ ".0".

(** [repr(x)], which is also how [csv.writer] writes a float. *)
Definition repr_float (x : pyfloat) : string :=
  match x with
  | Fnan => "nan"
  | Finf neg => if neg then "-inf" else "inf"
  | Ffin neg m e =>
      (if neg then "-" else "") ++
      (if m =? 0 then "0.0"
       else
         let n := m * 2 ^ Z.max 0 e in
         let d := 2 ^ Z.max 0 (- e) in
         let '(D, p, _) := shortest 16 (Ffin false m e) n d (decpt n d) 1 in
         layout (str_nat D) p)
  end.

(** ** [parse_block] *)

(** The seven local variables of [parse_block]; [None] is Python's [None]. *)
Record locals : Type := mkLocals {
  timestamp : option datetime;
  up : option pyfloat;
  down : option pyfloat;
  q : option Z;
  flow : option pyfloat;
  vel : option pyfloat;
  fvel : option pyfloat
}.

Definition unset : locals := mkLocals None None None None None None None.

(** The five [if] statements of the loop body. *)
Inductive kind : Type := KTimestamp | KUpDnQ | KFlow | KVel | KFvel.

Definition rule (k : kind) (line : string) (v : locals) : outcome locals :=
  match k with
  | KTimestamp =>
      if date_prefix line then
        t <- strptime line ;;
        Returned (mkLocals (Some t) (up v) (down v) (q v) (flow v) (vel v) (fvel v))
      else Returned v
  | KUpDnQ =>
      match UP_DN_Q_RE line with
      | Some (g_up, g_dn, g_q) =>
          u <- py_float g_up ;;
          d <- py_float g_dn ;;
          n <- py_int g_q ;;
          Returned (mkLocals (timestamp v) (Some u) (Some d) (Some n)
                             (flow v) (vel v) (fvel v))
      | None => Returned v
      end
  | KFlow =>
      match FLOW_RE line with
      | Some g =>
          x <- py_float g ;;
          Returned (mkLocals (timestamp v) (up v) (down v) (q v) (Some x) (vel v) (fvel v))
      | None => Returned v
      end
  | KVel =>
      match VEL_RE line with
      | Some g =>
          x <- py_float g ;;
          Returned (mkLocals (timestamp v) (up v) (down v) (q v) (flow v) (Some x) (fvel v))
      | None => Returned v
      end
  | KFvel =>
      match FVEL_RE line with
      | Some g =>
          x <- py_float g ;;
          Returned (mkLocals (timestamp v) (up v) (down v) (q v) (flow v) (vel v) (Some x))
      | None => Returned v
      end
  end.

(** The rules applied to one line in a given order. *)
Fixpoint scan_line_in (order : list kind) (line : string) (v : locals) : outcome locals :=
  match order with
  | [] => Returned v
  | k :: order' => v' <- rule k line v ;; scan_line_in order' line v'
  end.

(** The order of the source. *)
Definition source_order : list kind := [KTimestamp; KUpDnQ; KFlow; KVel; KFvel].

(** [for line in lines: ...] *)
Fixpoint scan_lines (order : list kind) (lines : list string) (v : locals) : outcome locals :=
  match lines with
  | [] => Returned v
  | line :: lines' => v' <- scan_line_in order line v ;; scan_lines order lines' v'
  end.

(** A cell of a CSV row before it is written. *)
Inductive cell : Type :=
| CStr (s : string)
| CFloat (x : pyfloat)
| CInt (n : Z).

(** What [parse_block] returns when it finds every field:
    [(timestamp, csv_row, flow)]. *)
Definition parsed : Type := (datetime * list cell * pyfloat)%type.

(** [if None in (...): return None], else the tuple. *)
Definition finish (target_flow : pyfloat) (v : locals) : option parsed :=
  match timestamp v, up v, down v, q v, flow v, vel v, fvel v with
  | Some t, Some u, Some d, Some n, Some f, Some x, Some y =>
      Some (t,
            [CStr (strftime t); CFloat target_flow; CFloat u; CFloat d; CInt n;
             CFloat f; CFloat x; CFloat y],
            f)
  | _, _, _, _, _, _, _ => None
  end.

Definition parse_block_in (order : list kind) (lines : list string) (target_flow : pyfloat)
  : outcome (option parsed) :=
  v <- scan_lines order lines unset ;; Returned (finish target_flow v).

Definition parse_block (lines : list string) (target_flow : pyfloat) : outcome (option parsed) :=
  parse_block_in source_order lines target_flow.

(** ** The record store *)

(** How [csv.writer] writes a cell: a string as it is, a float by [repr],
    an int by [str].  No cell of a row of this program holds a comma, a
    quote or a line break, so nothing is quoted. *)
Definition cell_text (c : cell) : string :=
  match c with
  | CStr s => s
  | CFloat x => repr_float x
  | CInt n => str_int n
  end.

Definition row_text (row : list cell) : string := String.concat "," (map cell_text row).

Definition CRLF : string := String (ascii_of_nat 13) (String (ascii_of_nat 10) EmptyString).

(** [writer.writerow(row)] on a file with this content. *)
Definition writerow (row : list cell) (content : string) : string :=
  content ++ row_text row ++ CRLF.

Definition header : list cell :=
  [CStr "timestamp"; CStr "target_flow"; CStr "up"; CStr "down"; CStr "q";
   CStr "flow_ls"; CStr "velocity_ms"; CStr "fvel_ms"].

(** [init_csv]: [disk] is the content of [CSV_FILE], [None] when the file
    does not exist; the result is the content once the file is open. *)
Definition init_csv (disk : option string) : string :=
  let exists_ := match disk with Some _ => true | None => false end in
  let f := match disk with Some content => content | None => EmptyString end in
  if negb exists_ then writerow header f else f.

(** ** [log_data] *)

(** [str.strip()] *)
Fixpoint lstrip (s : string) : string :=
  match s with
  | String c s' => if is_space c then lstrip s' else s
  | EmptyString => EmptyString
  end.

Fixpoint rstrip (s : string) : string :=
  match s with
  | String c s' =>
      match rstrip s' with
      | EmptyString => if is_space c then EmptyString else String c EmptyString
      | r => String c r
      end
  | EmptyString => EmptyString
  end.

Definition strip (s : string) : string := rstrip (lstrip s).

(** What the loop of [log_data] holds: its line buffer, the content of the
    CSV file, and the two lists it shares with the plot. *)
Record session : Type := mkSession {
  buffer : list string;
  csv_file : string;
  flow_values : list pyfloat;
  time_values : list datetime
}.

(** One iteration of the [while] loop on the text one [readline] decoded.
    The second component is the exception that leaves the loop, if any; the
    session is then as the iteration left it. *)
Definition iteration (target_flow : pyfloat) (raw : string) (s : session)
  : session * option exn :=
  let line := strip raw in
  if is_empty line then (s, None)
  else
    let s := mkSession (buffer s ++ [line]) (csv_file s) (flow_values s) (time_values s) in
    if startswith "FVEL" line then
      match parse_block (buffer s) target_flow with
      | Raised e => (s, Some e)
      | Returned p =>
          let s := mkSession [] (csv_file s) (flow_values s) (time_values s) in
          match p with
          | Some (t, csv_row, f) =>
              (mkSession (buffer s) (writerow csv_row (csv_file s))
                         (flow_values s ++ [f]) (time_values s ++ [t]), None)
          | None => (s, None)
          end
      end
    else (s, None).

(** The loop over the texts read until the stop flag is seen set. *)
Fixpoint loop (target_flow : pyfloat) (reads : list string) (s : session)
  : session * option exn :=
  match reads with
  | [] => (s, None)
  | raw :: reads' =>
      match iteration target_flow raw s with
      | (s', None) => loop target_flow reads' s'
      | (s', Some e) => (s', Some e)
      end
  end.

(** The session as [log_data] sets it up before the loop: the file opened
    by [init_csv], [buffer = []], and the two lists it was given. *)
Definition start (disk : option string)
    (flow_values0 : list pyfloat) (time_values0 : list datetime) : session :=
  mkSession [] (init_csv disk) flow_values0 time_values0.

(** [log_data(target_flow, flow_values, time_values)]; the [finally] block
    leaves the file with what was written whether or not an exception ends
    the loop. *)
Definition log_data (target_flow : pyfloat) (disk : option string)
    (flow_values0 : list pyfloat) (time_values0 : list datetime) (reads : list string)
  : session * option exn :=
  loop target_flow reads (start disk flow_values0 time_values0).

(** ** The two lists between the logger and the plot *)

(** The logger appends to [flow_values] and then to [time_values]; the plot
    takes [x = time_values] and [y = flow_values] and reads their contents
    when it draws.  Each append and each reading of a list's contents is one
    atomic step of the interpreter; a schedule is any order of such steps. *)
Record world : Type := mkWorld {
  w_flow : list pyfloat;
  w_time : list datetime;
  w_todo : list (datetime * pyfloat);
  w_half : option datetime;
  w_x : list datetime;
  w_y : list pyfloat
}.

Inductive action : Type :=
| LoggerStep   (* the next append of the logger *)
| PlotReadsX   (* the plot reads the contents of [time_values] *)
| PlotReadsY.  (* the plot reads the contents of [flow_values] *)

Definition act (a : action) (w : world) : world :=
  match a with
  | LoggerStep =>
      match w_half w with
      | Some t =>
          mkWorld (w_flow w) (w_time w ++ [t]) (w_todo w) None (w_x w) (w_y w)
      | None =>
          match w_todo w with
          | (t, f) :: todo =>
              mkWorld (w_flow w ++ [f]) (w_time w) todo (Some t) (w_x w) (w_y w)
          | [] => w
          end
      end
  | PlotReadsX => mkWorld (w_flow w) (w_time w) (w_todo w) (w_half w) (w_time w) (w_y w)
  | PlotReadsY => mkWorld (w_flow w) (w_time w) (w_todo w) (w_half w) (w_x w) (w_flow w)
  end.

Definition run (schedule : list action) (w : world) : world :=
  fold_left (fun w a => act a w) schedule w.

(** Both lists empty, the plot has read nothing, and the logger will push
    the given records in order. *)
Definition init_world (pushes : list (datetime * pyfloat)) : world :=
  mkWorld [] [] pushes None [] [].

(** The points the plot draws from its two readings, as the plotting
    library does once [set_data(x, y)] has stored them: the two sequences
    are broadcast against each other, so two of the same length are paired
    by index, one of a single element is repeated along the other, and any
    other two lengths are a [ValueError]. *)
Definition drawn (x : list datetime) (y : list pyfloat)
  : outcome (list (datetime * pyfloat)) :=
  if (List.length x =? List.length y)%nat then Returned (combine x y)
  else
    match x, y with
    | [t], _ => Returned (map (fun f => (t, f)) y)
    | _, [f] => Returned (map (fun t => (t, f)) x)
    | _, _ => Raised ValueError
    end.

(** ** Vocabulary of the statements *)

Definition is_some {A : Type} (o : option A) : bool :=
  match o with Some _ => true | None => false end.

Definition is_raised {A : Type} (o : outcome A) : bool :=
  match o with Raised _ => true | Returned _ => false end.

(** The line has a match of the pattern of this kind. *)
Definition matches (k : kind) (line : string) : bool :=
  match k with
  | KTimestamp => date_prefix line
  | KUpDnQ => is_some (UP_DN_Q_RE line)
  | KFlow => is_some (FLOW_RE line)
  | KVel => is_some (VEL_RE line)
  | KFvel => is_some (FVEL_RE line)
  end.

(** The line has a match of this kind whose text the rule cannot convert. *)
Definition uncoercible (k : kind) (line : string) : bool :=
  match k with
  | KTimestamp => date_prefix line && is_raised (strptime line)
  | KUpDnQ =>
      match UP_DN_Q_RE line with
      | Some (g_up, g_dn, g_q) =>
          is_raised (py_float g_up) || is_raised (py_float g_dn) || is_raised (py_int g_q)
      | None => false
      end
  | KFlow => match FLOW_RE line with Some g => is_raised (py_float g) | None => false end
  | KVel => match VEL_RE line with Some g => is_raised (py_float g) | None => false end
  | KFvel => match FVEL_RE line with Some g => is_raised (py_float g) | None => false end
  end.

Definition frame_has (k : kind) (frame : list string) : bool := existsb (matches k) frame.

(** Every one of the five kinds has a match in the frame. *)
Definition complete (frame : list string) : bool :=
  forallb (fun k => frame_has k frame) source_order.

(** Some line of the frame has a match that cannot be converted. *)
Definition malformed (frame : list string) : bool :=
  existsb (fun line => existsb (fun k => uncoercible k line) source_order) frame.

Inductive shape : Type := Raises | ReturnsNone | ReturnsRecord.

Definition shape_of (o : outcome (option parsed)) : shape :=
  match o with
  | Raised _ => Raises
  | Returned None => ReturnsNone
  | Returned (Some _) => ReturnsRecord
  end.

(** The last line of the frame that satisfies [p]. *)
Definition last_matching (p : string -> bool) (frame : list string) : option string :=
  find p (rev frame).

(** Each kind occurs exactly once in the order. *)
Definition is_order (order : list kind) : Prop :=
  NoDup order /\ forall k, In k order.

(** A row of a complete record of a session with this target. *)
Definition data_row (target_flow : pyfloat) (row : list cell) : Prop :=
  exists t u d n f x y,
    row = [CStr (strftime t); CFloat target_flow; CFloat u; CFloat d; CInt n;
           CFloat f; CFloat x; CFloat y].

(** The text of rows written one after the other. *)
Fixpoint rows_text (rows : list (list cell)) : string :=
  match rows with
  | [] => EmptyString
  | row :: rows' => row_text row ++ CRLF ++ rows_text rows'
  end.

(** What ties a world to the pushes of its logger: the logger has begun
    [a] of them and finished [b], the plot last read [cx] timestamps and
    [cy] flows. *)
Definition consistent (pushes : list (datetime * pyfloat)) (w : world) : Prop :=
  exists a b cx cy : nat,
    w_flow w = map snd (firstn a pushes)
    /\ w_time w = map fst (firstn b pushes)
    /\ w_todo w = skipn a pushes
    /\ w_x w = map fst (firstn cx pushes)
    /\ w_y w = map snd (firstn cy pushes)
    /\ match w_half w with
       | None => a = b
       | Some t => a = S b /\ exists f, nth_error pushes b = Some (t, f)
       end.

Definition nonblank (raw : string) : bool := negb (is_empty (strip raw)).

Definition kind_eq_dec (a b : kind) : {a = b} + {a <> b}.
Proof. decide equality. Defined.

(** What a rule reads off a line. *)
Inductive value : Type :=
| VTime (t : datetime)
| VReading (u d : pyfloat) (n : Z)
| VNum (x : pyfloat).

(** The reading of a rule on a line: [None] when its pattern has no match,
    otherwise the conversion of the matched text. *)
Definition reads (k : kind) (line : string) : option (outcome value) :=
  match k with
  | KTimestamp =>
      if date_prefix line then Some (t <- strptime line ;; Returned (VTime t)) else None
  | KUpDnQ =>
      match UP_DN_Q_RE line with
      | Some (g_up, g_dn, g_q) =>
          Some (u <- py_float g_up ;; d <- py_float g_dn ;; n <- py_int g_q ;;
                Returned (VReading u d n))
      | None => None
      end
  | KFlow => option_map (fun g => x <- py_float g ;; Returned (VNum x)) (FLOW_RE line)
  | KVel => option_map (fun g => x <- py_float g ;; Returned (VNum x)) (VEL_RE line)
  | KFvel => option_map (fun g => x <- py_float g ;; Returned (VNum x)) (FVEL_RE line)
  end.

(** The reading of the last line of the frame that matches the pattern. *)
Definition last_reading (k : kind) (frame : list string) : option (outcome value) :=
  obind (last_matching (matches k) frame) (reads k).

(** What the locals of a rule hold. *)
Definition held (k : kind) (v : locals) : option value :=
  match k with
  | KTimestamp => option_map VTime (timestamp v)
  | KUpDnQ =>
      match up v, down v, q v with
      | Some u, Some d, Some n => Some (VReading u d n)
      | _, _, _ => None
      end
  | KFlow => option_map VNum (flow v)
  | KVel => option_map VNum (vel v)
  | KFvel => option_map VNum (fvel v)
  end.

(** The value a rule holds after a run of lines none of which raises. *)
Definition latest (k : kind) (lines : list string) (init : option value) : option value :=
  fold_left (fun acc line =>
               match reads k line with
               | Some (Returned x) => Some x
               | _ => acc
               end) lines init.

(** A line the buffer keeps between two boundaries: not blank, not a
    boundary line. *)
Definition kept_line (l : string) : bool :=
  negb (is_empty l) && negb (startswith "FVEL" l).

(** The row of a push: eight cells, the text of the timestamp first, the
    target second, the flow sixth. *)
Definition row_of_push (target_flow : pyfloat) (p : datetime * pyfloat)
    (row : list cell) : Prop :=
  List.length row = 8%nat
  /\ nth_error row 0 = Some (CStr (strftime (fst p)))
  /\ nth_error row 1 = Some (CFloat target_flow)
  /\ nth_error row 5 = Some (CFloat (snd p)).

(** [up], [down] and [q] are all unset, or they are the three numbers of
    one and the same line of [lines]. *)
Definition of_one_line (lines : list string) (v : locals) : Prop :=
  (up v = None /\ down v = None /\ q v = None)
  \/ exists line g_up g_dn g_q u d n,
       In line lines
       /\ UP_DN_Q_RE line = Some (g_up, g_dn, g_q)
       /\ py_float g_up = Returned u /\ py_float g_dn = Returned d
       /\ py_int g_q = Returned n
       /\ up v = Some u /\ down v = Some d /\ q v = Some n.

(** A float that is zero, positive or plus infinity. *)
Definition nonneg_float (x : pyfloat) : bool :=
  match x with
  | Ffin false _ _ => true
  | Finf false => true
  | _ => false
  end.

(** Every character of the text satisfies [p]. *)
Fixpoint all_chars (p : ascii -> bool) (s : string) : bool :=
  match s with
  | EmptyString => true
  | String c s' => p c && all_chars p s'
  end.

(** The fields of a timestamp are those of a date and a time of day in the
    years 1969 to 2068. *)
Definition in_range (t : datetime) : Prop :=
  1969 <= year t <= 2068
  /\ 1 <= month t <= 12
  /\ 1 <= day t <= days_in_month (year t) (month t)
  /\ 0 <= hour t <= 23
  /\ 0 <= minute t <= 59
  /\ 0 <= second t <= 59.

(** A character [csv.writer] writes as it is: not the delimiter, not the
    quote, not a character of the line terminator. *)
Definition plain (c : ascii) : bool :=
  negb ((code c =? 44) || (code c =? 34) || (code c =? 13) || (code c =? 10)).

(** The number of commas of a text. *)
Fixpoint commas (s : string) : nat :=
  match s with
  | EmptyString => 0%nat
  | String c s' => ((if (code c =? 44)%Z then 1 else 0) + commas s')%nat
  end.

(** [main], as far as the file goes: one [log_data] for each target the
    operator enters, each with two new lists and the lines read until it is
    stopped, on the file as the session before left it. *)
Fixpoint sessions (runs : list (pyfloat * list string)) (disk : option string)
  : option string :=
  match runs with
  | [] => disk
  | (target_flow, reads) :: runs' =>
      sessions runs' (Some (csv_file (fst (log_data target_flow disk [] [] reads))))
  end.

(** A character of a timestamp line: a digit, a blank, a dash or a colon. *)
Definition stamp_char (c : ascii) : bool :=
  is_digit c || is_space c || (code c =? 45) || (code c =? 58).

(** Whatever the matcher reads at the start of a text is made of
    characters of a timestamp line. *)
Definition consumes {A : Type} (p : matcher A) : Prop :=
  forall s v r, In (v, r) (p s) ->
                exists pre, s = pre ++ r /\ all_chars stamp_char pre = true.

(** A velocity line proper: the velocity pattern matches it and the
    filtered-velocity pattern does not. *)
Definition velocity_line (line : string) : bool :=
  matches KVel line && negb (matches KFvel line).

(** What completeness says of a frame: it raises when the frame is
    malformed; if not, it returns [None] when the timestamp, the combined
    reading, the flow or the filtered velocity has no match, and a record
    when these four have one and the frame has a velocity line proper.
    [None] here is for the frames it says nothing of: those whose only
    velocity matches are on filtered-velocity lines. *)
Definition expected_shape (frame : list string) : option shape :=
  if malformed frame then Some Raises
  else if negb (frame_has KTimestamp frame && frame_has KUpDnQ frame
                && frame_has KFlow frame && frame_has KFvel frame)
  then Some ReturnsNone
  else if existsb velocity_line frame then Some ReturnsRecord
  else None.

(** Following the spec's words, "keeping the last match of each kind seen":
    the record made of the reading of the last matching line of each kind,
    [None] when a kind has no match, and the error of a text that cannot be
    converted. *)
Definition keep_last_match (frame : list string) (target_flow : pyfloat)
  : outcome (option parsed) :=
  if malformed frame then Raised ValueError
  else
    Returned
      match last_reading KTimestamp frame, last_reading KUpDnQ frame,
            last_reading KFlow frame, last_reading KVel frame,
            last_reading KFvel frame with
      | Some (Returned (VTime t)), Some (Returned (VReading u d n)),
        Some (Returned (VNum f)), Some (Returned (VNum x)), Some (Returned (VNum y)) =>
          Some (t,
                [CStr (strftime t); CFloat target_flow; CFloat u; CFloat d; CInt n;
                 CFloat f; CFloat x; CFloat y],
                f)
      | _, _, _, _, _ => None
      end.

(** ** The frames of the scenarios *)

(** The float 1.5 *)
Definition target_1_5 : pyfloat := Ffin false 6755399441055744 (-52).

Definition scenario_A : list string :=
  ["01-01-24 12:00:00"; "UP:10.2,DN:9.8,Q=3"; "FLOW: 1.523"; "VEL: 0.44"; "FVEL: 0.41"].

Definition scenario_B : list string :=
  ["01-01-24 12:00:00"; "UP:10.2,DN:9.8,Q=3"; "FLOW: 1.523"; "FVEL: 0.41"].

(** Scenario A followed by a flow line whose number has two dots. *)
Definition scenario_A_bad_flow : list string := (scenario_A ++ ["FLOW: 1.2.3"])%list.

(** Scenario A after an earlier combined reading, flow and velocity. *)
Definition scenario_A_repeats : list string :=
  ("UP:1.0,DN:2.0,Q=7" :: "FLOW: 9.9" :: "VEL: 0.99" :: scenario_A)%list.

(** A frame whose boundary line repeats the key before a velocity report. *)
Definition scenario_stutter : list string :=
  ["01-01-24 12:00:00"; "UP:10.2,DN:9.8,Q=3"; "FLOW: 1.523"; "FVEL VEL: 0.44 FVEL: 0.41"].

Definition noon : datetime := mkDatetime 2024 1 1 12 0 0.

Definition one_pm : datetime := mkDatetime 2024 1 1 13 0 0.

(** Two pushes, and a schedule in which the plot reads the flows after the
    second push has appended its flow and the timestamps before it has
    appended its timestamp. *)
Definition two_pushes : list (datetime * pyfloat) :=
  [(noon, target_1_5); (one_pm, Ffin false 0 0)].

Definition racy_schedule : list action :=
  [LoggerStep; LoggerStep; LoggerStep; PlotReadsY; PlotReadsX; LoggerStep].

(** A schedule in which the plot reads both lists between two pushes. *)
Definition quiet_schedule : list action :=
  [LoggerStep; LoggerStep; PlotReadsX; LoggerStep; LoggerStep; PlotReadsY;
   PlotReadsX].

(** A malformed flow line, then the boundary line. *)
Definition bad_frame : list string := ["FLOW: 1.2.3"; "FVEL: 1"].

Definition first_char (s : string) : option ascii :=
  match s with
  | String c _ => Some c
  | EmptyString => None
  end.

Definition header_line : string :=
  "timestamp,target_flow,up,down,q,flow_ls,velocity_ms,fvel_ms" ++ CRLF.

(** * Theorems *)

(** ** Scenarios A and B *)

Lemma target_1_5_is_1_5 :
  py_float "1.5" = Returned target_1_5 /\ repr_float target_1_5 = "1.5".
Proof. split; vm_compute; reflexivity. Qed.

(** C1, on the code: for the five-line frame of Scenario A and target 1.5
    [parse_block] returns a record, but the row it serialises is
    [2024-01-01 12:00:00,1.5,10.2,9.8,3,1.523,0.41,0.41]: the [FVEL: 0.41]
    line also matches [VEL_RE] and overwrites the velocity 0.44 read from
    the [VEL:] line. *)
Theorem scenario_A_row :
  exists row f,
    parse_block scenario_A target_1_5 = Returned (Some (noon, row, f))
    /\ row_text row = "2024-01-01 12:00:00,1.5,10.2,9.8,3,1.523,0.41,0.41"
    /\ VEL_RE "VEL: 0.44" = Some "0.44"
    /\ VEL_RE "FVEL: 0.41" = Some "0.41"
    /\ nth_error row 6 = nth_error row 7.
Proof.
  eexists. eexists. split; [vm_compute; reflexivity|].
  repeat split; vm_compute; reflexivity.
Qed.

(** C2, on the code: for the frame of Scenario B (no [VEL:] line)
    [parse_block] reports no missing velocity: the [FVEL: 0.41] line also
    matches [VEL_RE] and supplies it, the record is complete, [log_data]
    appends its row to the new file after the header and pushes one flow
    and one timestamp. *)
Lemma scenario_B_logged :
  shape_of (parse_block scenario_B target_1_5) = ReturnsRecord
  /\ exists f,
       log_data target_1_5 None [] [] scenario_B
       = (mkSession []
            (header_line ++ "2024-01-01 12:00:00,1.5,10.2,9.8,3,1.523,0.41,0.41" ++ CRLF)
            [f] [noon],
          None).
Proof.
  split; [vm_compute; reflexivity|].
  eexists. vm_compute. reflexivity.
Qed.

(** C10: extraction is not total.  Whatever the target, the frame with the
    single line [FLOW: 1.2.3] raises (the pattern captures [1.2.3], which
    [float] refuses), and so does the frame with the single line
    [01-01-24] (the date prefix matches, the line is not in the format of
    [strptime]): [parse_block] returns neither a record nor [None]. *)
Theorem parse_block_not_total :
  FLOW_RE "FLOW: 1.2.3" = Some "1.2.3"
  /\ (forall target_flow, parse_block ["FLOW: 1.2.3"] target_flow = Raised ValueError)
  /\ date_prefix "01-01-24" = true
  /\ (forall target_flow, parse_block ["01-01-24"] target_flow = Raised ValueError).
Proof.
  repeat split; intros; vm_compute; reflexivity.
Qed.

(** ** The rules of [parse_block] *)

Lemma matches_reads k line : matches k line = is_some (reads k line).
Proof.
  destruct k; simpl; try reflexivity.
  - destruct (date_prefix line); reflexivity.
  - destruct (UP_DN_Q_RE line) as [[[? ?] ?]|]; reflexivity.
  - destruct (FLOW_RE line); reflexivity.
  - destruct (VEL_RE line); reflexivity.
  - destruct (FVEL_RE line); reflexivity.
Qed.

Lemma uncoercible_reads k line :
  uncoercible k line =
  match reads k line with Some (Raised _) => true | _ => false end.
Proof.
  destruct k; simpl.
  - destruct (date_prefix line); simpl; [|reflexivity].
    destruct (strptime line); reflexivity.
  - destruct (UP_DN_Q_RE line) as [[[a b] c]|]; [|reflexivity].
    destruct (py_float a); simpl; [reflexivity|].
    destruct (py_float b); simpl; [reflexivity|].
    destruct (py_int c); reflexivity.
  - destruct (FLOW_RE line) as [g|]; simpl; [|reflexivity]. destruct (py_float g); reflexivity.
  - destruct (VEL_RE line) as [g|]; simpl; [|reflexivity]. destruct (py_float g); reflexivity.
  - destruct (FVEL_RE line) as [g|]; simpl; [|reflexivity]. destruct (py_float g); reflexivity.
Qed.

(** A rule leaves the locals alone when its pattern has no match, raises
    when the matched text cannot be converted, and otherwise stores the
    reading in its own locals and touches no other. *)
Lemma rule_reads k line v :
  match reads k line with
  | None => rule k line v = Returned v
  | Some (Raised e) => rule k line v = Raised e
  | Some (Returned x) =>
      exists v', rule k line v = Returned v' /\ held k v' = Some x
                 /\ forall k', k' <> k -> held k' v' = held k' v
  end.
Proof.
  destruct k; simpl.
  - destruct (date_prefix line); [|reflexivity].
    destruct (strptime line) as [e|t]; simpl; [reflexivity|].
    eexists; split; [reflexivity|]. split; [reflexivity|].
    intros [] Hk; try reflexivity; congruence.
  - destruct (UP_DN_Q_RE line) as [[[a b] c]|]; [|reflexivity].
    destruct (py_float a) as [e|u]; simpl; [reflexivity|].
    destruct (py_float b) as [e|d]; simpl; [reflexivity|].
    destruct (py_int c) as [e|n]; simpl; [reflexivity|].
    eexists; split; [reflexivity|]. split; [reflexivity|].
    intros [] Hk; try reflexivity; congruence.
  - destruct (FLOW_RE line) as [g|]; [|reflexivity]. simpl.
    destruct (py_float g) as [e|x]; simpl; [reflexivity|].
    eexists; split; [reflexivity|]. split; [reflexivity|].
    intros [] Hk; try reflexivity; congruence.
  - destruct (VEL_RE line) as [g|]; [|reflexivity]. simpl.
    destruct (py_float g) as [e|x]; simpl; [reflexivity|].
    eexists; split; [reflexivity|]. split; [reflexivity|].
    intros [] Hk; try reflexivity; congruence.
  - destruct (FVEL_RE line) as [g|]; [|reflexivity]. simpl.
    destruct (py_float g) as [e|x]; simpl; [reflexivity|].
    eexists; split; [reflexivity|]. split; [reflexivity|].
    intros [] Hk; try reflexivity; congruence.
Qed.

Lemma exn_unique (e : exn) : e = ValueError.
Proof. destruct e; reflexivity. Qed.

(** Whether a line raises depends on the line only, not on the locals. *)
Lemma scan_line_in_raised order line v :
  is_raised (scan_line_in order line v) = existsb (fun k => uncoercible k line) order.
Proof.
  revert v. induction order as [|k order IH]; intros v; simpl; [reflexivity|].
  rewrite uncoercible_reads. pose proof (rule_reads k line v) as H.
  destruct (reads k line) as [[e|x]|].
  - rewrite H. reflexivity.
  - destruct H as (v' & -> & _). simpl. apply IH.
  - rewrite H. simpl. apply IH.
Qed.

Lemma scan_line_in_held order line v v' :
  NoDup order ->
  scan_line_in order line v = Returned v' ->
  forall k,
    held k v' =
    if in_dec kind_eq_dec k order then
      match reads k line with Some (Returned x) => Some x | _ => held k v end
    else held k v.
Proof.
  revert v. induction order as [|k0 order IH]; intros v Hnd Hscan k; simpl in *.
  - congruence.
  - inversion Hnd as [|? ? Hnotin Hnd']; subst.
    pose proof (rule_reads k0 line v) as H.
    assert (Hstep : exists v1, rule k0 line v = Returned v1
              /\ scan_line_in order line v1 = Returned v'
              /\ held k0 v1 = match reads k0 line with
                              | Some (Returned x) => Some x | _ => held k0 v end
              /\ forall k', k' <> k0 -> held k' v1 = held k' v).
    { destruct (reads k0 line) as [[e|x]|].
      - rewrite H in Hscan. discriminate.
      - destruct H as (v1 & Hr & Hh & Ho). exists v1. rewrite Hr in Hscan. auto.
      - exists v. rewrite H in Hscan. auto. }
    destruct Hstep as (v1 & _ & Hrest & Hk0 & Hother).
    specialize (IH v1 Hnd' Hrest k).
    destruct (kind_eq_dec k0 k) as [->|Hne].
    + destruct (in_dec kind_eq_dec k order) as [Hin|_]; [contradiction|].
      rewrite IH. exact Hk0.
    + destruct (in_dec kind_eq_dec k order) as [Hin|Hnin]; rewrite IH.
      * destruct (reads k line) as [[?|?]|]; auto.
      * auto.
Qed.

Lemma scan_lines_raised order lines v :
  is_raised (scan_lines order lines v)
  = existsb (fun line => existsb (fun k => uncoercible k line) order) lines.
Proof.
  revert v. induction lines as [|line lines IH]; intros v; simpl; [reflexivity|].
  rewrite <- (scan_line_in_raised order line v).
  destruct (scan_line_in order line v) as [e|v1]; simpl; [reflexivity|]. apply IH.
Qed.

Lemma scan_lines_held order lines v v' :
  is_order order ->
  scan_lines order lines v = Returned v' ->
  forall k, held k v' = latest k lines (held k v).
Proof.
  intros [Hnd Hall]. revert v.
  induction lines as [|line lines IH]; intros v Hscan k; simpl in *.
  - congruence.
  - destruct (scan_line_in order line v) as [e|v1] eqn:Hline; simpl in Hscan; [discriminate|].
    rewrite (IH v1 Hscan k). f_equal.
    rewrite (scan_line_in_held order line v v1 Hnd Hline k).
    destruct (in_dec kind_eq_dec k order) as [_|Hnin]; [reflexivity|].
    destruct (Hnin (Hall k)).
Qed.

Lemma existsb_false_in (A : Type) (p : A -> bool) (l : list A) (x : A) :
  existsb p l = false -> In x l -> p x = false.
Proof.
  intros H Hin. destruct (p x) eqn:Hp; [|reflexivity].
  assert (existsb p l = true) by (apply existsb_exists; eauto). congruence.
Qed.

Lemma find_app (A : Type) (p : A -> bool) (a b : list A) :
  find p (a ++ b)%list = match find p a with Some x => Some x | None => find p b end.
Proof.
  induction a as [|x a IH]; simpl; [reflexivity|]. destruct (p x); auto.
Qed.

Lemma last_matching_cons p line frame :
  last_matching p (line :: frame) =
  match last_matching p frame with
  | Some l => Some l
  | None => if p line then Some line else None
  end.
Proof.
  unfold last_matching. simpl. rewrite find_app. simpl.
  destruct (find p (rev frame)); [reflexivity|]. destruct (p line); reflexivity.
Qed.

Lemma last_matching_some p frame line :
  last_matching p frame = Some line -> In line frame /\ p line = true.
Proof.
  unfold last_matching. intros H. apply find_some in H.
  destruct H as [Hin Hp]. split; [apply in_rev; exact Hin | exact Hp].
Qed.

Lemma last_matching_is_some p frame :
  is_some (last_matching p frame) = existsb p frame.
Proof.
  induction frame as [|line frame IH]; [reflexivity|].
  rewrite last_matching_cons. simpl. rewrite <- IH.
  destruct (last_matching p frame); simpl.
  - apply eq_sym, orb_true_r.
  - rewrite orb_false_r. destruct (p line); reflexivity.
Qed.

(** With no unconvertible match in the lines, the value a rule ends with is
    the reading of the last line its pattern matches. *)
Lemma latest_last_reading k lines init :
  existsb (uncoercible k) lines = false ->
  latest k lines init =
  match last_reading k lines with
  | Some (Returned x) => Some x
  | _ => init
  end.
Proof.
  revert init. induction lines as [|line lines IH]; intros init Hok; [reflexivity|].
  simpl in Hok. apply orb_false_iff in Hok. destruct Hok as [Hline Hok].
  change (latest k (line :: lines) init)
    with (latest k lines (match reads k line with
                          | Some (Returned x) => Some x
                          | _ => init
                          end)).
  rewrite (IH _ Hok).
  unfold last_reading. rewrite last_matching_cons.
  destruct (last_matching (matches k) lines) as [l|] eqn:Hl.
  { apply last_matching_some in Hl. destruct Hl as [Hin Hm].
    pose proof (existsb_false_in _ _ _ _ Hok Hin) as Hu.
    rewrite uncoercible_reads in Hu. rewrite matches_reads in Hm. simpl.
    destruct (reads k l) as [[e|x]|]; simpl in *; congruence. }
  rewrite matches_reads. rewrite uncoercible_reads in Hline. simpl.
  destruct (reads k line) as [[e|x]|] eqn:Hr; simpl.
  - discriminate.
  - rewrite Hr. reflexivity.
  - reflexivity.
Qed.

Lemma last_reading_is_some k frame :
  is_some (last_reading k frame) = frame_has k frame.
Proof.
  unfold last_reading, frame_has. rewrite <- last_matching_is_some.
  destruct (last_matching (matches k) frame) as [l|] eqn:H; [|reflexivity].
  apply last_matching_some in H. destruct H as [_ H].
  rewrite matches_reads in H. exact H.
Qed.

Lemma well_formed_kind order frame k :
  In k order ->
  existsb (fun line => existsb (fun k => uncoercible k line) order) frame = false ->
  existsb (uncoercible k) frame = false.
Proof.
  intros Hin H. induction frame as [|line frame IH]; [reflexivity|].
  simpl in *. apply orb_false_iff in H. destruct H as [H1 H2].
  rewrite (IH H2), orb_false_r.
  exact (existsb_false_in _ (fun k => uncoercible k line) order k H1 Hin).
Qed.

Lemma existsb_is_order (p : kind -> bool) order :
  is_order order -> existsb p order = existsb p source_order.
Proof.
  intros [_ Hall].
  destruct (existsb p order) eqn:H1, (existsb p source_order) eqn:H2; try reflexivity.
  - apply existsb_exists in H1. destruct H1 as (k & _ & Hk).
    rewrite (existsb_false_in _ p source_order k H2) in Hk; [discriminate|].
    destruct k; simpl; tauto.
  - apply existsb_exists in H2. destruct H2 as (k & _ & Hk).
    rewrite (existsb_false_in _ p order k H1 (Hall k)) in Hk. discriminate.
Qed.

Lemma source_order_is_order : is_order source_order.
Proof.
  split.
  - repeat constructor; simpl; intuition discriminate.
  - intros []; simpl; tauto.
Qed.

(** What [finish] returns is decided by what the five rules hold. *)
Lemma finish_held target v :
  finish target v =
  match held KTimestamp v, held KUpDnQ v, held KFlow v, held KVel v, held KFvel v with
  | Some (VTime t), Some (VReading u d n), Some (VNum f), Some (VNum x), Some (VNum y) =>
      Some (t, [CStr (strftime t); CFloat target; CFloat u; CFloat d; CInt n;
                CFloat f; CFloat x; CFloat y], f)
  | _, _, _, _, _ => None
  end.
Proof.
  destruct v as [[t|] [u|] [d|] [n|] [f|] [x|] [y|]]; reflexivity.
Qed.

Lemma finish_is_some target v :
  is_some (finish target v) = forallb (fun k => is_some (held k v)) source_order.
Proof.
  destruct v as [[t|] [u|] [d|] [n|] [f|] [x|] [y|]]; reflexivity.
Qed.

(** A scan that does not raise ends with the last readings. *)
Lemma scan_lines_last order frame v :
  is_order order ->
  scan_lines order frame unset = Returned v ->
  forall k, held k v =
            match last_reading k frame with Some (Returned x) => Some x | _ => None end
            /\ is_some (held k v) = frame_has k frame.
Proof.
  intros Hord Hscan k.
  pose proof (scan_lines_raised order frame unset) as Hr. rewrite Hscan in Hr. simpl in Hr.
  assert (Hk : existsb (uncoercible k) frame = false).
  { apply (well_formed_kind order); [apply Hord | auto]. }
  rewrite (scan_lines_held order frame unset v Hord Hscan k).
  assert (Hinit : held k unset = None) by (destruct k; reflexivity).
  rewrite Hinit, (latest_last_reading _ _ _ Hk).
  split; [reflexivity|].
  rewrite <- last_reading_is_some.
  unfold last_reading.
  destruct (last_matching (matches k) frame) as [l|] eqn:Hl; [|reflexivity]. simpl.
  apply last_matching_some in Hl. destruct Hl as [Hin Hm].
  pose proof (existsb_false_in _ _ _ _ Hk Hin) as Hu. simpl in Hu.
  rewrite uncoercible_reads in Hu. rewrite matches_reads in Hm.
  destruct (reads k l) as [[e|x]|]; simpl in *; congruence.
Qed.

(** ** Completeness *)

Lemma shape_of_parse_block (frame : list string) (target_flow : pyfloat) :
  shape_of (parse_block frame target_flow) =
  if malformed frame then Raises
  else if complete frame then ReturnsRecord
  else ReturnsNone.
Proof.
  unfold parse_block, parse_block_in.
  pose proof (scan_lines_raised source_order frame unset) as Hr.
  fold (malformed frame) in Hr.
  destruct (scan_lines source_order frame unset) as [e|v] eqn:Hscan; simpl in Hr |- *.
  - rewrite <- Hr. reflexivity.
  - rewrite <- Hr.
    pose proof (finish_is_some target_flow v) as Hf.
    assert (Hc : forallb (fun k => is_some (held k v)) source_order = complete frame).
    { assert (H : forall k, is_some (held k v) = frame_has k frame)
        by (intros k; apply (scan_lines_last source_order frame v source_order_is_order Hscan k)).
      unfold complete, source_order, forallb. rewrite !H. reflexivity. }
    rewrite Hc in Hf.
    destruct (finish target_flow v); simpl in Hf; rewrite <- Hf; reflexivity.
Qed.

Lemma has_velocity_line frame :
  existsb velocity_line frame = true -> frame_has KVel frame = true.
Proof.
  unfold frame_has. intros H. apply existsb_exists in H. destruct H as (l & Hin & Hl).
  apply existsb_exists. exists l. split; [exact Hin|].
  unfold velocity_line in Hl. apply andb_true_iff in Hl. apply Hl.
Qed.

(** C3, as the code has it: [parse_block] raises when some line of the
    frame has a match whose text cannot be converted; otherwise it returns
    [None], which names no kind, when the timestamp, the combined reading,
    the flow or the filtered velocity has no match in the frame, and a
    record when each of these four has a match and some line is matched by
    the velocity pattern and not by the filtered-velocity pattern. *)
Theorem parse_block_shape (frame : list string) (target_flow : pyfloat) :
  match expected_shape frame with
  | Some s => shape_of (parse_block frame target_flow) = s
  | None => True
  end.
Proof.
  unfold expected_shape.
  rewrite (shape_of_parse_block frame target_flow).
  destruct (malformed frame); [reflexivity|].
  unfold complete, source_order, forallb.
  destruct (frame_has KTimestamp frame), (frame_has KUpDnQ frame),
    (frame_has KFlow frame), (frame_has KFvel frame); cbn [andb negb];
    try reflexivity; try (destruct (frame_has KVel frame); reflexivity).
  destruct (existsb velocity_line frame) eqn:E; [|exact I].
  rewrite (has_velocity_line frame E). reflexivity.
Qed.

(** The three cases of C3 on frames of the scenarios. *)
Lemma expected_shape_cases :
  expected_shape scenario_A = Some ReturnsRecord
  /\ expected_shape bad_frame = Some Raises
  /\ expected_shape ["FLOW: 1.523"; "VEL: 0.44"; "FVEL: 0.41"] = Some ReturnsNone
  /\ expected_shape scenario_B = None.
Proof. repeat split; vm_compute; reflexivity. Qed.

(** C3, as stated, fails: the frame of Scenario A followed by the line
    [FLOW: 1.2.3] has a match of each of the five kinds, and [parse_block]
    returns no record for it (it raises). *)
Lemma completeness_as_stated_fails :
  ~ ((exists r, parse_block scenario_A_bad_flow target_1_5 = Returned (Some r))
     <-> complete scenario_A_bad_flow = true).
Proof.
  intros [_ H]. destruct (H eq_refl) as [r Hr]. vm_compute in Hr. discriminate.
Qed.

(** ** Last match wins *)

Lemma malformed_is_order order frame :
  is_order order ->
  existsb (fun line => existsb (fun k => uncoercible k line) order) frame = malformed frame.
Proof.
  intros Hord. unfold malformed.
  induction frame as [|line frame IH]; [reflexivity|]. simpl.
  rewrite IH, (existsb_is_order _ order Hord). reflexivity.
Qed.

Lemma order_and_last_readings (order : list kind) (frame : list string)
    (target_flow : pyfloat) :
  is_order order ->
  parse_block_in order frame target_flow = parse_block frame target_flow
  /\ forall t row f,
       parse_block frame target_flow = Returned (Some (t, row, f)) ->
       exists u d n x y,
         last_reading KTimestamp frame = Some (Returned (VTime t))
         /\ last_reading KUpDnQ frame = Some (Returned (VReading u d n))
         /\ last_reading KFlow frame = Some (Returned (VNum f))
         /\ last_reading KVel frame = Some (Returned (VNum x))
         /\ last_reading KFvel frame = Some (Returned (VNum y))
         /\ row = [CStr (strftime t); CFloat target_flow; CFloat u; CFloat d; CInt n;
                   CFloat f; CFloat x; CFloat y].
Proof.
  intros Hord. split.
  - unfold parse_block, parse_block_in.
    pose proof (scan_lines_raised order frame unset) as H1.
    pose proof (scan_lines_raised source_order frame unset) as H2.
    rewrite (malformed_is_order order frame Hord) in H1. fold (malformed frame) in H2.
    destruct (scan_lines order frame unset) as [e1|v1] eqn:E1;
      destruct (scan_lines source_order frame unset) as [e2|v2] eqn:E2;
      simpl in *; try congruence.
    + rewrite (exn_unique e1), (exn_unique e2). reflexivity.
    + f_equal. rewrite !finish_held.
      pose proof (fun k => proj1 (scan_lines_last order frame v1 Hord E1 k)) as L1.
      pose proof (fun k => proj1 (scan_lines_last source_order frame v2
                                     source_order_is_order E2 k)) as L2.
      rewrite !L1, !L2. reflexivity.
  - intros t row f. unfold parse_block, parse_block_in.
    destruct (scan_lines source_order frame unset) as [e|v] eqn:E; simpl; [discriminate|].
    rewrite finish_held.
    pose proof (fun k => proj1 (scan_lines_last source_order frame v
                                   source_order_is_order E k)) as L.
    rewrite !L. clear L E.
    destruct (last_reading KTimestamp frame) as [[?|[t'|? ? ?|?]]|]; try discriminate.
    destruct (last_reading KUpDnQ frame) as [[?|[?|u d n|?]]|]; try discriminate.
    destruct (last_reading KFlow frame) as [[?|[?|? ? ?|f']]|]; try discriminate.
    destruct (last_reading KVel frame) as [[?|[?|? ? ?|x]]|]; try discriminate.
    destruct (last_reading KFvel frame) as [[?|[?|? ? ?|y]]|]; try discriminate.
    intros H. inversion H; subst. exists u, d, n, x, y. repeat split; reflexivity.
Qed.

(** C5: whatever the order in which the five rules are applied to each
    line, and for every frame, what [parse_block] returns is what keeping
    the last match of each kind gives: a record whose every field is the
    conversion of the match on the last line of the frame that its pattern
    matches, [None] when a kind has no match, and the error when a matched
    text cannot be converted. *)
Theorem last_match_wins (order : list kind) (frame : list string) (target_flow : pyfloat) :
  is_order order ->
  parse_block_in order frame target_flow = keep_last_match frame target_flow.
Proof.
  intros Hord. unfold parse_block_in, keep_last_match.
  pose proof (scan_lines_raised order frame unset) as H1.
  rewrite (malformed_is_order order frame Hord) in H1.
  destruct (scan_lines order frame unset) as [e|v] eqn:E; cbn [bind is_raised] in *.
  - rewrite <- H1, (exn_unique e). reflexivity.
  - rewrite <- H1. f_equal. rewrite finish_held.
    pose proof (fun k => proj1 (scan_lines_last order frame v Hord E k)) as L.
    rewrite !L. clear L E H1.
    destruct (last_reading KTimestamp frame) as [[?|[?|? ? ?|?]]|]; try reflexivity.
    destruct (last_reading KUpDnQ frame) as [[?|[?|? ? ?|?]]|]; try reflexivity.
    destruct (last_reading KFlow frame) as [[?|[?|? ? ?|?]]|]; try reflexivity.
    destruct (last_reading KVel frame) as [[?|[?|? ? ?|?]]|]; try reflexivity.
    destruct (last_reading KFvel frame) as [[?|[?|? ? ?|?]]|]; reflexivity.
Qed.

(** An instance of C5: the rules in the reverse of the source's order, on
    Scenario A after an earlier combined reading (1.0, 2.0, 7), flow (9.9)
    and velocity (0.99): the record has the later readings. *)
Lemma last_match_wins_witness :
  exists row f,
    parse_block_in (rev source_order) scenario_A_repeats target_1_5
    = Returned (Some (noon, row, f))
    /\ row_text row = "2024-01-01 12:00:00,1.5,10.2,9.8,3,1.523,0.41,0.41"
    /\ last_matching (matches KFlow) scenario_A_repeats = Some "FLOW: 1.523".
Proof.
  assert (H : is_order (rev source_order)).
  { split.
    - repeat constructor; simpl; intuition discriminate.
    - intros []; simpl; tauto. }
  rewrite (last_match_wins (rev source_order) scenario_A_repeats target_1_5 H).
  eexists. eexists.
  split; [vm_compute; reflexivity|].
  split; [vm_compute; reflexivity | reflexivity].
Defined.

(** ** Velocity and filtered velocity *)

Lemma lit_app pat s r : lit pat s = Some r -> s = pat ++ r.
Proof.
  revert s. induction pat as [|c pat IH]; intros s H; simpl in *.
  - congruence.
  - destruct s as [|d s]; [discriminate|].
    destruct (Ascii.eqb c d) eqn:E; [|discriminate].
    apply Ascii.eqb_eq in E. subst d. f_equal. apply IH. exact H.
Qed.

Lemma search_at_start (A : Type) (f : string -> option A) s m :
  f s = Some m -> search f s = Some m.
Proof. intros H. destruct s; simpl; rewrite H; reflexivity. Qed.

Lemma search_skip (A : Type) (f : string -> option A) c s :
  f (String c s) = None -> search f (String c s) = search f s.
Proof. intros H. simpl. rewrite H. reflexivity. Qed.

Lemma lit_prefix pat r : lit pat (pat ++ r) = Some r.
Proof.
  induction pat as [|c pat IH]; simpl; [reflexivity|].
  rewrite Ascii.eqb_refl. exact IH.
Qed.

(** A line that begins with a filtered-velocity report gives [VEL_RE] the
    text it gives [FVEL_RE]. *)
Lemma FVEL_at_both line g :
  FVEL_at line = Some g -> FVEL_RE line = Some g /\ VEL_RE line = Some g.
Proof.
  intros H. split; [apply search_at_start; exact H|].
  unfold FVEL_at, keyed_at in H.
  destruct (lit "FVEL:" line) as [r|] eqn:Hl; [|discriminate].
  apply lit_app in Hl. subst line. simpl in H.
  unfold VEL_RE.
  change ("FVEL:" ++ r) with (String "F" ("VEL:" ++ r)).
  rewrite search_skip by reflexivity.
  apply search_at_start. unfold VEL_at, keyed_at.
  rewrite lit_prefix. exact H.
Qed.

Lemma FVEL_RE_VEL_RE line :
  matches KFvel line = true -> matches KVel line = true.
Proof.
  change (is_some (search FVEL_at line) = true -> is_some (search VEL_at line) = true).
  induction line as [|c line IH].
  - intros H. vm_compute in H. discriminate.
  - destruct (FVEL_at (String c line)) as [g|] eqn:E.
    + intros _. pose proof (proj2 (FVEL_at_both _ _ E)) as V.
      unfold VEL_RE in V. rewrite V. reflexivity.
    + rewrite (search_skip _ FVEL_at c line E). intros H.
      destruct (VEL_at (String c line)) as [g|] eqn:V.
      * rewrite (search_at_start _ VEL_at _ g V). reflexivity.
      * rewrite (search_skip _ VEL_at c line V). apply IH. exact H.
Qed.

Lemma last_matching_narrow (p p' : string -> bool) frame line :
  (forall l, p' l = true -> p l = true) ->
  last_matching p frame = Some line ->
  p' line = true ->
  last_matching p' frame = Some line.
Proof.
  intros Himp. induction frame as [|l frame IH]; [discriminate|].
  rewrite !last_matching_cons.
  destruct (last_matching p frame) as [l0|] eqn:E.
  - intros H Hp'. rewrite (IH H Hp'). reflexivity.
  - destruct (last_matching p' frame) as [l1|] eqn:E'.
    + apply last_matching_some in E'. destruct E' as [Hin Hl1].
      assert (is_some (last_matching p frame) = true).
      { rewrite last_matching_is_some. apply existsb_exists. eauto. }
      rewrite E in H. discriminate.
    + destruct (p l); [|discriminate]. intros H Hp'. inversion H; subst.
      rewrite Hp'. reflexivity.
Qed.

(** C9, as the code has it: a line matched by the filtered-velocity pattern
    is matched by the velocity pattern; and in a record of a frame whose
    last velocity match is on a line that begins with the filtered-velocity
    report ([FVEL:], optional blanks, a number), velocity and filtered
    velocity are the same value. *)
Theorem velocity_is_filtered_velocity :
  (forall line, matches KFvel line = true -> matches KVel line = true)
  /\ forall frame target_flow t row f line,
       parse_block frame target_flow = Returned (Some (t, row, f)) ->
       last_matching (matches KVel) frame = Some line ->
       is_some (FVEL_at line) = true ->
       exists x, nth_error row 6 = Some (CFloat x) /\ nth_error row 7 = Some (CFloat x).
Proof.
  split; [exact FVEL_RE_VEL_RE|].
  intros frame target_flow t row f line Hparse Hlast Hat.
  destruct (FVEL_at line) as [g|] eqn:Hg; [clear Hat|discriminate].
  destruct (FVEL_at_both _ _ Hg) as [HF HV].
  assert (Hlast' : last_matching (matches KFvel) frame = Some line).
  { apply (last_matching_narrow (matches KVel)); auto using FVEL_RE_VEL_RE.
    simpl. rewrite HF. reflexivity. }
  destruct (proj2 (order_and_last_readings source_order frame target_flow
                     source_order_is_order) t row f Hparse) as (u & d & n & x & y & _ & _ & _ & Lx & Ly & Hrow).
  unfold last_reading in Lx, Ly. rewrite Hlast in Lx. rewrite Hlast' in Ly.
  simpl in Lx, Ly. rewrite HV in Lx. rewrite HF in Ly. simpl in Lx, Ly.
  rewrite Lx in Ly. inversion Ly; subst.
  exists y. split; reflexivity.
Qed.

(** An instance of C9: Scenario A, whose last velocity match is on the line
    [FVEL: 0.41]. *)
Lemma velocity_is_filtered_velocity_witness :
  exists row x,
    row_text row = "2024-01-01 12:00:00,1.5,10.2,9.8,3,1.523,0.41,0.41"
    /\ nth_error row 6 = Some (CFloat x) /\ nth_error row 7 = Some (CFloat x).
Proof.
  assert (P : exists row f,
             parse_block scenario_A target_1_5 = Returned (Some (noon, row, f))
             /\ row_text row = "2024-01-01 12:00:00,1.5,10.2,9.8,3,1.523,0.41,0.41").
  { eexists. eexists. split; [vm_compute; reflexivity | vm_compute; reflexivity]. }
  destruct P as (row & f & P & Htext).
  destruct (proj2 velocity_is_filtered_velocity scenario_A target_1_5 noon row f
              "FVEL: 0.41" P eq_refl eq_refl) as (x & H6 & H7).
  exists row, x. auto.
Defined.

(** C9, as stated, fails: in this frame the last velocity match is on the
    boundary line, a line that starts with [FVEL] and holds a
    filtered-velocity report, and the record has velocity 0.44 and
    filtered velocity 0.41. *)
Lemma velocity_differs_on_boundary_line :
  exists t row f,
    parse_block scenario_stutter target_1_5 = Returned (Some (t, row, f))
    /\ last_matching (matches KVel) scenario_stutter = Some "FVEL VEL: 0.44 FVEL: 0.41"
    /\ startswith "FVEL" "FVEL VEL: 0.44 FVEL: 0.41" = true
    /\ matches KFvel "FVEL VEL: 0.44 FVEL: 0.41" = true
    /\ option_map cell_text (nth_error row 6) = Some "0.44"
    /\ option_map cell_text (nth_error row 7) = Some "0.41"
    /\ nth_error row 6 <> nth_error row 7.
Proof.
  eexists. eexists. eexists. split; [vm_compute; reflexivity|].
  repeat split; try (vm_compute; reflexivity).
  vm_compute. discriminate.
Qed.

(** ** The lists shared with the plot *)

Lemma skipn_cons_inv (A : Type) (a : nat) (l : list A) (x : A) (rest : list A) :
  skipn a l = x :: rest ->
  skipn (S a) l = rest /\ firstn (S a) l = (firstn a l ++ [x])%list.
Proof.
  revert l. induction a as [|a IH]; intros l H.
  - simpl in H. subst l. split; reflexivity.
  - destruct l as [|y l]; [discriminate|]. simpl in H.
    destruct (IH l H) as [H1 H2]. split; [exact H1|].
    change (y :: firstn (S a) l = y :: (firstn a l ++ [x])%list). rewrite H2. reflexivity.
Qed.

Lemma firstn_snoc_nth (A : Type) (b : nat) (l : list A) (x : A) :
  nth_error l b = Some x -> firstn (S b) l = (firstn b l ++ [x])%list.
Proof.
  revert l. induction b as [|b IH]; intros [|y l] H; try discriminate.
  - simpl in H. inversion H. reflexivity.
  - simpl in H. change (y :: firstn (S b) l = y :: (firstn b l ++ [x])%list).
    rewrite (IH l H). reflexivity.
Qed.

Lemma skipn_head_nth (A : Type) (a : nat) (l : list A) (x : A) (rest : list A) :
  skipn a l = x :: rest -> nth_error l a = Some x.
Proof.
  revert l. induction a as [|a IH]; intros l H.
  - simpl in H. subst l. reflexivity.
  - destruct l as [|y l]; [discriminate|]. simpl in *. auto.
Qed.

Lemma combine_firstn (A B : Type) (l : list (A * B)) (a b : nat) :
  combine (map fst (firstn a l)) (map snd (firstn b l)) = firstn (Nat.min a b) l.
Proof.
  revert a b. induction l as [|[x y] l IH]; intros a b.
  - destruct a, b; reflexivity.
  - destruct a, b; simpl; try reflexivity. rewrite IH. reflexivity.
Qed.

Lemma nth_error_firstn_some (A : Type) (k i : nat) (l : list A) (x : A) :
  nth_error (firstn k l) i = Some x -> nth_error l i = Some x.
Proof.
  revert i l. induction k as [|k IH]; intros i l H.
  - destruct i; discriminate.
  - destruct l as [|y l]; [destruct i; discriminate|].
    destruct i; simpl in *; auto.
Qed.

Lemma consistent_init pushes : consistent pushes (init_world pushes).
Proof. exists 0%nat, 0%nat, 0%nat, 0%nat. repeat split. Qed.

(** Every step of either thread keeps the two lists prefixes of what the
    logger pushes. *)
Lemma consistent_act pushes a w : consistent pushes w -> consistent pushes (act a w).
Proof.
  intros (na & nb & cx & cy & Hf & Ht & Htodo & Hx & Hy & Hhalf).
  unfold consistent, act. destruct a.
  - destruct (w_half w) as [t|] eqn:Hh.
    + destruct Hhalf as [Ha [f Hnth]].
      exists na, (S nb), cx, cy. cbn [w_flow w_time w_todo w_half w_x w_y].
      rewrite (firstn_snoc_nth _ _ _ _ Hnth), map_app, <- Ht.
      repeat split; auto.
    + destruct (w_todo w) as [|[t f] todo] eqn:Htd.
      * exists na, nb, cx, cy. rewrite Hh, Htd. repeat split; auto.
      * symmetry in Htodo. subst nb.
        destruct (skipn_cons_inv _ _ _ _ _ Htodo) as [Hs Hfn].
        exists (S na), na, cx, cy. cbn [w_flow w_time w_todo w_half w_x w_y].
        rewrite Hfn, map_app, <- Hf, Hs.
        repeat split; auto.
        exists f. exact (skipn_head_nth _ _ _ _ _ Htodo).
  - exists na, nb, nb, cy. cbn [w_flow w_time w_todo w_half w_x w_y]. repeat split; auto.
  - exists na, nb, cx, na. cbn [w_flow w_time w_todo w_half w_x w_y]. repeat split; auto.
Qed.

Lemma consistent_run pushes schedule w :
  consistent pushes w -> consistent pushes (run schedule w).
Proof.
  revert w. induction schedule as [|a schedule IH]; intros w H; [exact H|].
  apply IH, consistent_act, H.
Qed.

Lemma firstn_min_length (A : Type) (n : nat) (l : list A) :
  firstn (Nat.min n (List.length l)) l = firstn n l.
Proof.
  revert n. induction l as [|x l IH]; intros [|n]; simpl; try reflexivity.
  rewrite IH. reflexivity.
Qed.

Lemma length_map_firstn (A B : Type) (g : A -> B) (n : nat) (l : list A) :
  List.length (map g (firstn n l)) = Nat.min n (List.length l).
Proof. rewrite length_map. apply length_firstn. Qed.

(** C6, as the code has it: whatever the interleaving of the logger's
    appends with the plot's readings of the two lists, when the plot has
    read as many timestamps as flows, the points it draws are the first
    pushes, in order, each the timestamp and the flow of one push. *)
Theorem no_torn_pair_at_equal_lengths (pushes : list (datetime * pyfloat))
    (schedule : list action) :
  List.length (w_x (run schedule (init_world pushes)))
  = List.length (w_y (run schedule (init_world pushes))) ->
  drawn (w_x (run schedule (init_world pushes))) (w_y (run schedule (init_world pushes)))
  = Returned (firstn (List.length (w_x (run schedule (init_world pushes)))) pushes).
Proof.
  destruct (consistent_run pushes schedule _ (consistent_init pushes))
    as (na & nb & cx & cy & _ & _ & _ & Hx & Hy & _).
  rewrite Hx, Hy. intros Hlen. unfold drawn.
  rewrite (proj2 (Nat.eqb_eq _ _) Hlen). f_equal.
  rewrite combine_firstn.
  rewrite !length_map_firstn in Hlen. rewrite length_map_firstn, firstn_min_length.
  destruct (Nat.min_spec cx cy) as [[_ ->]|[_ ->]]; [reflexivity|].
  rewrite <- (firstn_min_length _ cy), <- Hlen, firstn_min_length. reflexivity.
Qed.

(** An instance of C6: the plot reads both lists after the second push; it
    draws the two pushes. *)
Lemma no_torn_pair_at_equal_lengths_witness :
  drawn (w_x (run quiet_schedule (init_world two_pushes)))
        (w_y (run quiet_schedule (init_world two_pushes)))
  = Returned two_pushes.
Proof.
  apply (no_torn_pair_at_equal_lengths two_pushes quiet_schedule). reflexivity.
Defined.

(** C6, as stated, fails: the plot reads the flows after the second push
    has appended its flow and the timestamps before it has appended its
    timestamp; it draws the timestamp of the first push with the flow of
    the second, a pair no push produced. *)
Lemma torn_point_drawn :
  w_x (run racy_schedule (init_world two_pushes)) = [noon]
  /\ w_y (run racy_schedule (init_world two_pushes)) = [target_1_5; Ffin false 0 0]
  /\ drawn (w_x (run racy_schedule (init_world two_pushes)))
           (w_y (run racy_schedule (init_world two_pushes)))
     = Returned [(noon, target_1_5); (noon, Ffin false 0 0)]
  /\ ~ In (noon, Ffin false 0 0) two_pushes.
Proof.
  repeat split; try reflexivity.
  intros [H|[H|[]]]; discriminate.
Qed.

(** ** The read loop *)

(** C8, as the code has it: the buffer starts empty; a blank line leaves
    it as it is; a non-blank line is appended; on a boundary line the
    buffer, with that line, goes to [parse_block] and is emptied when
    [parse_block] returns, a record or [None]; when [parse_block] raises,
    the buffer is not emptied and the exception leaves the loop.  Blank
    lines change nothing in a run of the loop. *)
Theorem frame_buffer_lifetime (target_flow : pyfloat) (raw : string) (s : session) :
  (forall disk fv tv, buffer (start disk fv tv) = [])
  /\ buffer (fst (iteration target_flow raw s))
     = (if is_empty (strip raw) then buffer s
        else if startswith "FVEL" (strip raw) then
          match parse_block (buffer s ++ [strip raw]) target_flow with
          | Returned _ => []
          | Raised _ => (buffer s ++ [strip raw])%list
          end
        else (buffer s ++ [strip raw])%list)
  /\ is_some (snd (iteration target_flow raw s))
     = nonblank raw && startswith "FVEL" (strip raw)
       && is_raised (parse_block (buffer s ++ [strip raw]) target_flow)
  /\ forall reads, loop target_flow reads s = loop target_flow (filter nonblank reads) s.
Proof.
  split; [reflexivity|]. split; [|split].
  - unfold iteration. destruct (is_empty (strip raw)); [reflexivity|].
    destruct (startswith "FVEL" (strip raw)); [|reflexivity]. simpl.
    destruct (parse_block (buffer s ++ [strip raw]) target_flow) as [e|[[[t row] f]|]];
      reflexivity.
  - unfold iteration, nonblank. destruct (is_empty (strip raw)); [reflexivity|].
    destruct (startswith "FVEL" (strip raw)); [|reflexivity]. simpl.
    destruct (parse_block (buffer s ++ [strip raw]) target_flow) as [e|[[[t row] f]|]];
      reflexivity.
  - intros reads. revert s. induction reads as [|r reads IH]; intros s; [reflexivity|].
    simpl. unfold nonblank at 1.
    destruct (is_empty (strip r)) eqn:E; simpl.
    + unfold iteration. rewrite E. apply IH.
    + destruct (iteration target_flow r s) as [s' [e|]]; [reflexivity|]. apply IH.
Qed.

(** C8, as stated, fails: after the lines [FLOW: 1.2.3] and [FVEL: 1] the
    boundary line has been seen and the buffer still holds both lines. *)
Lemma buffer_kept_when_extraction_raises :
  startswith "FVEL" (strip "FVEL: 1") = true
  /\ log_data target_1_5 None [] [] bad_frame
     = (mkSession bad_frame header_line [] [], Some ValueError)
  /\ buffer (fst (log_data target_1_5 None [] [] bad_frame)) <> [].
Proof.
  split; [reflexivity|]. split; [vm_compute; reflexivity|]. vm_compute. discriminate.
Qed.

(** C4, as the code has it: on a boundary line, a frame for which
    [parse_block] returns [None] is dropped (nothing is written or pushed)
    and the loop goes on with the next line; a frame for which
    [parse_block] raises ends the loop there, whatever lines would follow,
    with the exception. *)
Theorem extraction_failure (target_flow : pyfloat) (raw : string) (s : session) :
  nonblank raw = true ->
  startswith "FVEL" (strip raw) = true ->
  (parse_block (buffer s ++ [strip raw]) target_flow = Returned None ->
   forall rest,
     loop target_flow (raw :: rest) s
     = loop target_flow rest (mkSession [] (csv_file s) (flow_values s) (time_values s)))
  /\ (forall e, parse_block (buffer s ++ [strip raw]) target_flow = Raised e ->
      forall rest,
        loop target_flow (raw :: rest) s
        = (mkSession (buffer s ++ [strip raw]) (csv_file s) (flow_values s) (time_values s),
           Some e)).
Proof.
  unfold nonblank. intros Hnb Hb.
  destruct (is_empty (strip raw)) eqn:E; [discriminate|].
  split.
  - intros Hp rest. simpl. unfold iteration. rewrite E, Hb. simpl. rewrite Hp. reflexivity.
  - intros e Hp rest. simpl. unfold iteration. rewrite E, Hb. simpl. rewrite Hp. reflexivity.
Qed.

(** An instance of C4: a frame with no timestamp is dropped and the loop
    goes on; a frame with a malformed flow ends it. *)
Lemma extraction_failure_witness :
  (forall rest,
     loop target_1_5 ("FVEL: 1" :: rest) (mkSession ["FLOW: 1.5"] header_line [] [])
     = loop target_1_5 rest (mkSession [] header_line [] []))
  /\ (forall rest,
        loop target_1_5 ("FVEL: 1" :: rest) (mkSession ["FLOW: 1.2.3"] header_line [] [])
        = (mkSession bad_frame header_line [] [], Some ValueError)).
Proof.
  split.
  - apply (proj1 (extraction_failure target_1_5 "FVEL: 1"
                    (mkSession ["FLOW: 1.5"] header_line [] []) eq_refl eq_refl)).
    vm_compute. reflexivity.
  - apply (proj2 (extraction_failure target_1_5 "FVEL: 1"
                    (mkSession ["FLOW: 1.2.3"] header_line [] []) eq_refl eq_refl)).
    vm_compute. reflexivity.
Defined.

(** C4, as stated, fails: the malformed flow of the first frame ends the
    session with a [ValueError]; the complete frame that follows it, which
    alone would be logged, is never read. *)
Lemma malformed_number_ends_session :
  log_data target_1_5 None [] [] (bad_frame ++ scenario_A)
  = (mkSession bad_frame header_line [] [], Some ValueError)
  /\ exists f,
       log_data target_1_5 None [] [] scenario_A
       = (mkSession []
            (header_line ++ "2024-01-01 12:00:00,1.5,10.2,9.8,3,1.523,0.41,0.41" ++ CRLF)
            [f] [noon], None).
Proof.
  split; [vm_compute; reflexivity|]. eexists. vm_compute. reflexivity.
Qed.

(** ** The record store *)

Lemma string_app_assoc (a b c : string) : (a ++ b) ++ c = a ++ b ++ c.
Proof. induction a as [|x a IH]; simpl; [reflexivity|]. rewrite IH. reflexivity. Qed.

Lemma string_app_nil_r (a : string) : a ++ "" = a.
Proof. induction a as [|x a IH]; simpl; [reflexivity|]. rewrite IH. reflexivity. Qed.

Lemma digit_char_is_digit (d : Z) : is_digit (digit_char d) = true.
Proof.
  unfold digit_char.
  assert (H : (Z.to_nat (d mod 10) < 10)%nat).
  { pose proof (Z.mod_pos_bound d 10 eq_refl). lia. }
  destruct (Z.to_nat (d mod 10)) as [|[|[|[|[|[|[|[|[|[|n]]]]]]]]]]; try reflexivity. lia.
Qed.

(** The text of a data row starts with a digit of its year. *)
Lemma data_row_first_char target_flow row :
  data_row target_flow row ->
  exists c, first_char (row_text row ++ CRLF) = Some c /\ is_digit c = true.
Proof.
  intros (t & u & d & n & f & x & y & ->).
  exists (digit_char (year t / 1000)). split; [reflexivity|]. apply digit_char_is_digit.
Qed.

Lemma data_row_not_header target_flow row :
  data_row target_flow row -> row_text row ++ CRLF <> header_line.
Proof.
  intros H E. destruct (data_row_first_char _ _ H) as (c & Hc & Hd).
  rewrite E in Hc. vm_compute in Hc. inversion Hc; subst. vm_compute in Hd. discriminate.
Qed.

Lemma parse_block_data_row frame target_flow t row f :
  parse_block frame target_flow = Returned (Some (t, row, f)) -> data_row target_flow row.
Proof.
  intros H.
  destruct (proj2 (order_and_last_readings source_order frame target_flow
                     source_order_is_order) t row f H) as (u & d & n & x & y & _ & _ & _ & _ & _ & ->).
  exists t, u, d, n, f, x, y. reflexivity.
Qed.

(** An iteration either leaves the file and the two lists as they are, or
    writes the row of a complete record and pushes its flow and timestamp. *)
Lemma iteration_cases target_flow raw s :
  (exists b o,
     iteration target_flow raw s
     = (mkSession b (csv_file s) (flow_values s) (time_values s), o))
  \/ (exists t row f,
        data_row target_flow row
        /\ iteration target_flow raw s
           = (mkSession [] (writerow row (csv_file s))
                (flow_values s ++ [f]) (time_values s ++ [t]), None)).
Proof.
  unfold iteration.
  destruct (is_empty (strip raw)).
  { left. exists (buffer s), None. destruct s; reflexivity. }
  destruct (startswith "FVEL" (strip raw)); cbn [buffer csv_file flow_values time_values].
  - destruct (parse_block (buffer s ++ [strip raw]) target_flow)
      as [e|[[[t row] f]|]] eqn:Hp.
    + left. eexists. eexists. reflexivity.
    + right. exists t, row, f. split; [|reflexivity].
      exact (parse_block_data_row _ _ _ _ _ Hp).
    + left. eexists. eexists. reflexivity.
  - left. eexists. eexists. reflexivity.
Qed.

(** The loop only appends to the file: rows of complete records of its
    own target, one for each flow it pushes. *)
Lemma loop_appends target_flow reads s :
  exists rows,
    csv_file (fst (loop target_flow reads s)) = csv_file s ++ rows_text rows
    /\ Forall (data_row target_flow) rows
    /\ List.length (flow_values (fst (loop target_flow reads s)))
       = (List.length (flow_values s) + List.length rows)%nat.
Proof.
  revert s. induction reads as [|raw reads IH]; intros s.
  - exists []. simpl. rewrite string_app_nil_r. repeat split; auto.
  - cbn [loop].
    destruct (iteration_cases target_flow raw s)
      as [(b & o & ->)|(t & row & f & Hrow & ->)].
    + destruct o as [e|].
      * exists []. simpl. rewrite string_app_nil_r. repeat split; auto.
      * destruct (IH (mkSession b (csv_file s) (flow_values s) (time_values s)))
          as (rows & Hc & Hr & Hl).
        exists rows. repeat split; assumption.
    + destruct (IH (mkSession [] (writerow row (csv_file s))
                      (flow_values s ++ [f]) (time_values s ++ [t])))
        as (rows & Hc & Hr & Hl).
      cbn [csv_file flow_values] in Hc, Hl.
      exists (row :: rows). split; [|split].
      * rewrite Hc. unfold writerow. cbn [rows_text].
        rewrite !string_app_assoc. reflexivity.
      * constructor; assumption.
      * rewrite Hl, length_app. simpl. lia.
Qed.

(** C7: [init_csv] writes the header when the file did not exist and only
    then, whatever an existing file holds; and after two sessions on a file
    that did not exist before the first, the file is the header followed by
    the rows of the first session, each with the first target, and the rows
    of the second, each with the second target; no row is a header. *)
Theorem header_written_once :
  init_csv None = header_line
  /\ (forall content, init_csv (Some content) = content)
  /\ forall t1 t2 reads1 reads2 fv1 tv1 fv2 tv2,
       let s1 := fst (log_data t1 None fv1 tv1 reads1) in
       let s2 := fst (log_data t2 (Some (csv_file s1)) fv2 tv2 reads2) in
       exists rows1 rows2,
         csv_file s1 = header_line ++ rows_text rows1
         /\ csv_file s2 = header_line ++ rows_text rows1 ++ rows_text rows2
         /\ Forall (data_row t1) rows1
         /\ Forall (data_row t2) rows2
         /\ List.length (flow_values s1) = (List.length fv1 + List.length rows1)%nat
         /\ List.length (flow_values s2) = (List.length fv2 + List.length rows2)%nat
         /\ Forall (fun row => row_text row ++ CRLF <> header_line) (rows1 ++ rows2).
Proof.
  split; [reflexivity|]. split; [reflexivity|].
  intros t1 t2 reads1 reads2 fv1 tv1 fv2 tv2 s1 s2.
  destruct (loop_appends t1 reads1 (start None fv1 tv1)) as (rows1 & C1 & R1 & L1).
  destruct (loop_appends t2 reads2 (start (Some (csv_file s1)) fv2 tv2))
    as (rows2 & C2 & R2 & L2).
  exists rows1, rows2.
  assert (E1 : csv_file s1 = header_line ++ rows_text rows1) by exact C1.
  repeat split; auto.
  - unfold s2, log_data. rewrite C2. simpl. rewrite E1. apply string_app_assoc.
  - apply Forall_app. split.
    + eapply Forall_impl; [|exact R1]. intros row. apply data_row_not_header.
    + eapply Forall_impl; [|exact R2]. intros row. apply data_row_not_header.
Qed.

(** * Further properties of the code *)

(** ** The store and the two lists *)

Lemma parse_block_row frame target_flow t row f :
  parse_block frame target_flow = Returned (Some (t, row, f)) ->
  exists u d n x y,
    row = [CStr (strftime t); CFloat target_flow; CFloat u; CFloat d; CInt n;
           CFloat f; CFloat x; CFloat y].
Proof.
  unfold parse_block, parse_block_in.
  destruct (scan_lines source_order frame unset) as [e|v]; simpl; [discriminate|].
  destruct v as [[t'|] [u|] [d|] [n|] [f'|] [x|] [y|]]; simpl; try discriminate.
  intros H. inversion H; subst. exists u, d, n, x, y. reflexivity.
Qed.

(** An iteration leaves the file and the two lists alone, or writes one row
    and pushes the flow and the timestamp of that row. *)
Lemma iteration_push target_flow raw s :
  (exists b o,
     iteration target_flow raw s
     = (mkSession b (csv_file s) (flow_values s) (time_values s), o))
  \/ (exists t f row,
        row_of_push target_flow (t, f) row
        /\ iteration target_flow raw s
           = (mkSession [] (writerow row (csv_file s))
                (flow_values s ++ [f]) (time_values s ++ [t]), None)).
Proof.
  unfold iteration.
  destruct (is_empty (strip raw)).
  { left. exists (buffer s), None. destruct s; reflexivity. }
  destruct (startswith "FVEL" (strip raw)); cbn [buffer csv_file flow_values time_values].
  - destruct (parse_block (buffer s ++ [strip raw]) target_flow)
      as [e|[[[t row] f]|]] eqn:Hp.
    + left. eexists. eexists. reflexivity.
    + right. exists t, f, row. split; [|reflexivity].
      destruct (parse_block_row _ _ _ _ _ Hp) as (u & d & n & x & y & ->).
      repeat split.
    + left. eexists. eexists. reflexivity.
  - left. eexists. eexists. reflexivity.
Qed.

(** X2: a run of the loop appends to the file and to the two lists in
    step: there is a list of pushes, in order, whose flows are what
    [flow_values] gained, whose timestamps are what [time_values] gained,
    and whose rows, one for each push, in the same order, are what the file
    gained.  What the three held before is kept. *)
Theorem store_and_lists_in_step (target_flow : pyfloat) (reads : list string) (s : session) :
  exists pushes rows,
    flow_values (fst (loop target_flow reads s)) = (flow_values s ++ map snd pushes)%list
    /\ time_values (fst (loop target_flow reads s)) = (time_values s ++ map fst pushes)%list
    /\ csv_file (fst (loop target_flow reads s)) = csv_file s ++ rows_text rows
    /\ Forall2 (row_of_push target_flow) pushes rows.
Proof.
  revert s. induction reads as [|raw reads IH]; intros s.
  - exists [], []. simpl. rewrite !app_nil_r, string_app_nil_r. repeat split; constructor.
  - cbn [loop].
    destruct (iteration_push target_flow raw s)
      as [(b & o & ->)|(t & f & row & Hrow & ->)].
    + destruct o as [e|].
      * exists [], []. simpl. rewrite !app_nil_r, string_app_nil_r.
        repeat split; constructor.
      * destruct (IH (mkSession b (csv_file s) (flow_values s) (time_values s)))
          as (pushes & rows & Hf & Ht & Hc & Hr).
        exists pushes, rows. repeat split; assumption.
    + destruct (IH (mkSession [] (writerow row (csv_file s))
                      (flow_values s ++ [f]) (time_values s ++ [t])))
        as (pushes & rows & Hf & Ht & Hc & Hr).
      cbn [csv_file flow_values time_values] in Hf, Ht, Hc.
      exists ((t, f) :: pushes), (row :: rows). split; [|split; [|split]].
      * rewrite Hf, <- app_assoc. reflexivity.
      * rewrite Ht, <- app_assoc. reflexivity.
      * rewrite Hc. unfold writerow. cbn [rows_text].
        rewrite !string_app_assoc. reflexivity.
      * constructor; assumption.
Qed.

(** ** The buffer between two boundaries *)

Lemma iteration_buffer target_flow raw s :
  Forall (fun l => kept_line l = true) (buffer s) ->
  match snd (iteration target_flow raw s) with
  | None => Forall (fun l => kept_line l = true) (buffer (fst (iteration target_flow raw s)))
  | Some _ =>
      exists frame l,
        buffer (fst (iteration target_flow raw s)) = (frame ++ [l])%list
        /\ Forall (fun l => kept_line l = true) frame
        /\ startswith "FVEL" l = true
  end.
Proof.
  intros H. unfold iteration.
  destruct (is_empty (strip raw)) eqn:E; [exact H|].
  destruct (startswith "FVEL" (strip raw)) eqn:B;
    cbn [buffer csv_file flow_values time_values].
  - destruct (parse_block (buffer s ++ [strip raw]) target_flow) as [e|[[[t row] f]|]];
      cbn [fst snd buffer].
    + exists (buffer s), (strip raw). auto.
    + constructor.
    + constructor.
  - cbn [fst snd buffer]. apply Forall_app. split; [exact H|].
    constructor; [|constructor]. unfold kept_line. rewrite E, B. reflexivity.
Qed.

(** X3: in a session of [log_data] that no exception has left, the buffer
    holds only non-blank lines that are not boundary lines, so every frame
    [parse_block] is given has one boundary line, its last; when an
    exception has left the loop, the buffer is such a frame. *)
Theorem buffer_between_boundaries (target_flow : pyfloat) (disk : option string)
    (fv : list pyfloat) (tv : list datetime) (reads : list string) :
  match snd (log_data target_flow disk fv tv reads) with
  | None =>
      Forall (fun l => kept_line l = true)
        (buffer (fst (log_data target_flow disk fv tv reads)))
  | Some _ =>
      exists frame l,
        buffer (fst (log_data target_flow disk fv tv reads)) = (frame ++ [l])%list
        /\ Forall (fun l => kept_line l = true) frame
        /\ startswith "FVEL" l = true
  end.
Proof.
  unfold log_data.
  assert (H : Forall (fun l => kept_line l = true) (buffer (start disk fv tv)))
    by constructor.
  revert H. generalize (start disk fv tv) as s.
  induction reads as [|raw reads IH]; intros s H; [exact H|].
  cbn [loop]. pose proof (iteration_buffer target_flow raw s H) as Hi.
  destruct (iteration target_flow raw s) as [s' [e|]]; cbn [fst snd] in *.
  - exact Hi.
  - apply IH. exact Hi.
Qed.

(** ** The locals of [parse_block] *)

Lemma rule_of_one_line k line v v' lines :
  rule k line v = Returned v' -> In line lines ->
  of_one_line lines v -> of_one_line lines v'.
Proof.
  intros H Hin Hv. destruct k; simpl in H.
  - destruct (date_prefix line); [|inversion H; subst; exact Hv].
    destruct (strptime line); simpl in H; [discriminate|].
    inversion H; subst. exact Hv.
  - destruct (UP_DN_Q_RE line) as [[[a b] c]|] eqn:E; [|inversion H; subst; exact Hv].
    destruct (py_float a) as [e|u] eqn:Ea; simpl in H; [discriminate|].
    destruct (py_float b) as [e|d] eqn:Eb; simpl in H; [discriminate|].
    destruct (py_int c) as [e|n] eqn:Ec; simpl in H; [discriminate|].
    inversion H; subst. right. exists line, a, b, c, u, d, n. repeat split; assumption.
  - destruct (FLOW_RE line) as [g|]; [|inversion H; subst; exact Hv].
    destruct (py_float g); simpl in H; [discriminate|]. inversion H; subst. exact Hv.
  - destruct (VEL_RE line) as [g|]; [|inversion H; subst; exact Hv].
    destruct (py_float g); simpl in H; [discriminate|]. inversion H; subst. exact Hv.
  - destruct (FVEL_RE line) as [g|]; [|inversion H; subst; exact Hv].
    destruct (py_float g); simpl in H; [discriminate|]. inversion H; subst. exact Hv.
Qed.

(** X4: whatever the lines and whatever rules are applied in whatever
    order, after a scan that starts with every local unset and does not
    raise, [up], [down] and [q] are all unset or are the three numbers of
    one and the same line of the frame: no record mixes the readings of two
    different [UP:] lines. *)
Theorem up_down_q_together (order : list kind) (lines : list string) (v : locals) :
  scan_lines order lines unset = Returned v -> of_one_line lines v.
Proof.
  assert (G : forall L order line v0 v1,
             scan_line_in order line v0 = Returned v1 -> In line L ->
             of_one_line L v0 -> of_one_line L v1).
  { clear. intros L order. induction order as [|k order IH]; intros line v0 v1; simpl.
    - intros H _ Hv. inversion H; subst. exact Hv.
    - destruct (rule k line v0) as [e|v2] eqn:R; simpl; [discriminate|].
      intros H Hin Hv. exact (IH line v2 v1 H Hin (rule_of_one_line k line v0 v2 L R Hin Hv)). }
  assert (S : forall L ls v0,
             (forall l, In l ls -> In l L) -> of_one_line L v0 ->
             scan_lines order ls v0 = Returned v -> of_one_line L v).
  { intros L ls. induction ls as [|line ls IH]; intros v0 Hsub Hv; simpl.
    - intros H. inversion H; subst. exact Hv.
    - destruct (scan_line_in order line v0) as [e|v1] eqn:E; simpl; [discriminate|].
      intros H. apply (IH v1); [intros l Hl; apply Hsub; right; exact Hl| |exact H].
      apply (G L order line v0 v1 E); [apply Hsub; left; reflexivity|exact Hv]. }
  apply (S lines lines unset); [auto|].
  left. repeat split.
Qed.

(** An instance of X4: a frame with two combined readings. *)
Lemma up_down_q_together_witness :
  exists v, scan_lines source_order scenario_A_repeats unset = Returned v
            /\ of_one_line scenario_A_repeats v.
Proof.
  eexists. split; [vm_compute; reflexivity|].
  eapply (up_down_q_together source_order scenario_A_repeats). vm_compute. reflexivity.
Defined.

(** ** What the patterns can capture *)

Lemma span_all p s : all_chars p (fst (span p s)) = true.
Proof.
  induction s as [|c s IH]; [reflexivity|]. simpl.
  destruct (p c) eqn:E; [|reflexivity].
  destruct (span p s) as [a r]. simpl in *. rewrite E. exact IH.
Qed.

Lemma plus_all p s a r : plus p s = Some (a, r) -> all_chars p a = true.
Proof.
  unfold plus. pose proof (span_all p s) as H.
  destruct (span p s) as [[|c a'] r']; [discriminate|].
  intros E. inversion E; subst. exact H.
Qed.

Lemma search_inv (A : Type) (f : string -> option A) s m :
  search f s = Some m -> exists pre suf, s = pre ++ suf /\ f suf = Some m.
Proof.
  induction s as [|c s IH]; simpl.
  - destruct (f "") eqn:E; [|discriminate].
    intros H; inversion H; subst. exists "", "". auto.
  - destruct (f (String c s)) eqn:E.
    + intros H; inversion H; subst. exists "", (String c s). auto.
    + intros H. destruct (IH H) as (pre & suf & -> & Hs).
      exists (String c pre), suf. auto.
Qed.

Lemma dec_val_nonneg s acc :
  all_chars is_digit s = true -> 0 <= acc -> 0 <= dec_val acc s.
Proof.
  revert acc. induction s as [|c s IH]; intros acc H Hacc;
    cbn [all_chars dec_val] in *; [exact Hacc|].
  apply andb_true_iff in H. destruct H as [Hc Hs].
  apply IH; [exact Hs|].
  unfold is_digit in Hc. apply andb_true_iff in Hc. destruct Hc as [Hlo _].
  apply Z.leb_le in Hlo. unfold digit_val. lia.
Qed.

Lemma binary64_of_ratio_nonneg n d : nonneg_float (binary64_of_ratio n d) = true.
Proof.
  unfold binary64_of_ratio.
  destruct (n =? 0); [reflexivity|].
  match goal with |- context [if ?c then (?a, ?b) else (?a', ?b')] =>
    destruct c end;
  match goal with |- context [971 <? ?e] => destruct (971 <? e) end;
  try reflexivity;
  match goal with |- context [?m =? 0] => destruct (m =? 0) end; reflexivity.
Qed.

Lemma py_float_nonneg text x : py_float text = Returned x -> nonneg_float x = true.
Proof.
  unfold py_float. destruct (span is_digit text) as [ip r].
  destruct r as [|c f].
  - destruct (is_empty ip); [discriminate|].
    intros H; inversion H; subst. apply binary64_of_ratio_nonneg.
  - destruct (code c =? 46); [|discriminate].
    destruct (span is_digit f) as [fp r'].
    destruct (is_empty r' && negb (is_empty ip && is_empty fp)); [|discriminate].
    intros H; inversion H. apply binary64_of_ratio_nonneg.
Qed.

Lemma UP_DN_Q_RE_digits line g_up g_dn g_q :
  UP_DN_Q_RE line = Some (g_up, g_dn, g_q) -> all_chars is_digit g_q = true.
Proof.
  intros H. apply search_inv in H. destruct H as (pre & suf & _ & H).
  unfold UP_DN_Q_at in H.
  destruct (lit "UP:" suf) as [r1|]; [|discriminate]. cbn [obind] in H.
  destruct (plus is_digit_or_dot r1) as [[a r2]|]; [|discriminate]. cbn [obind] in H.
  destruct (lit ",DN:" r2) as [r3|]; [|discriminate]. cbn [obind] in H.
  destruct (plus is_digit_or_dot r3) as [[b r4]|]; [|discriminate]. cbn [obind] in H.
  destruct (lit ",Q=" r4) as [r5|]; [|discriminate]. cbn [obind] in H.
  destruct (plus is_digit r5) as [[c r6]|] eqn:E; [|discriminate]. cbn [obind] in H.
  inversion H; subst. exact (plus_all _ _ _ _ E).
Qed.

(** X6: no reading of a record is negative or not a number: the patterns
    capture digits and dots only, so [up], [down], [flow], the velocity and
    the filtered velocity are zero, positive or plus infinity, and [q] is a
    natural number. *)
Theorem readings_not_negative (frame : list string) (target_flow : pyfloat)
    (t : datetime) (row : list cell) (f : pyfloat) :
  parse_block frame target_flow = Returned (Some (t, row, f)) ->
  exists u d n x y,
    row = [CStr (strftime t); CFloat target_flow; CFloat u; CFloat d; CInt n;
           CFloat f; CFloat x; CFloat y]
    /\ nonneg_float u = true /\ nonneg_float d = true /\ 0 <= n
    /\ nonneg_float f = true /\ nonneg_float x = true /\ nonneg_float y = true.
Proof.
  intros H.
  destruct (proj2 (order_and_last_readings source_order frame target_flow
                     source_order_is_order) t row f H)
    as (u & d & n & x & y & _ & Lu & Lf & Lx & Ly & ->).
  exists u, d, n, x, y. split; [reflexivity|].
  assert (K : forall key v, (key = FLOW_RE \/ key = VEL_RE \/ key = FVEL_RE) ->
                forall l, option_map (fun g => x <- py_float g ;; Returned (VNum x)) (key l)
                          = Some (Returned (VNum v)) -> nonneg_float v = true).
  { intros key v _ l. destruct (key l) as [g|]; simpl; [|discriminate].
    destruct (py_float g) as [e|z] eqn:E; simpl; intros Hz; inversion Hz; subst.
    exact (py_float_nonneg _ _ E). }
  unfold last_reading in *.
  destruct (last_matching (matches KUpDnQ) frame) as [lu|]; [|discriminate].
  destruct (last_matching (matches KFlow) frame) as [lf|]; [|discriminate].
  destruct (last_matching (matches KVel) frame) as [lx|]; [|discriminate].
  destruct (last_matching (matches KFvel) frame) as [ly|]; [|discriminate].
  cbn [obind reads] in *.
  destruct (UP_DN_Q_RE lu) as [[[a b] c]|] eqn:Eu; [|discriminate].
  destruct (py_float a) as [e|u'] eqn:Ea; simpl in Lu; [discriminate|].
  destruct (py_float b) as [e|d'] eqn:Eb; simpl in Lu; [discriminate|].
  destruct (py_int c) as [e|n'] eqn:Ec; simpl in Lu; [discriminate|].
  inversion Lu; subst.
  repeat split.
  - exact (py_float_nonneg _ _ Ea).
  - exact (py_float_nonneg _ _ Eb).
  - unfold py_int in Ec.
    destruct (max_str_digits <? Z.of_nat (String.length c)); [discriminate|].
    inversion Ec; subst.
    apply dec_val_nonneg; [exact (UP_DN_Q_RE_digits _ _ _ _ Eu) | lia].
  - apply (K FLOW_RE f (or_introl eq_refl) lf Lf).
  - apply (K VEL_RE x (or_intror (or_introl eq_refl)) lx Lx).
  - apply (K FVEL_RE y (or_intror (or_intror eq_refl)) ly Ly).
Qed.

(** An instance of X6: the record of Scenario A. *)
Lemma readings_not_negative_witness :
  exists row f u d n x y,
    parse_block scenario_A target_1_5 = Returned (Some (noon, row, f))
    /\ row = [CStr (strftime noon); CFloat target_1_5; CFloat u; CFloat d; CInt n;
              CFloat f; CFloat x; CFloat y]
    /\ nonneg_float f = true /\ 0 <= n.
Proof.
  assert (P : exists row f,
             parse_block scenario_A target_1_5 = Returned (Some (noon, row, f))).
  { eexists. eexists. vm_compute. reflexivity. }
  destruct P as (row & f & P).
  destruct (readings_not_negative scenario_A target_1_5 noon row f P)
    as (u & d & n & x & y & Hrow & _ & _ & Hn & Hf & _).
  exists row, f, u, d, n, x, y. auto.
Defined.

(** ** The boundary line *)

Lemma last_matching_snoc p frame line :
  p line = true -> last_matching p (frame ++ [line]) = Some line.
Proof.
  intros H. unfold last_matching. rewrite rev_app_distr. simpl. rewrite H. reflexivity.
Qed.

(** X7: when the last line of a frame begins with a filtered-velocity
    report, as the boundary line of a frame of [log_data] does on the
    device's output, both the velocity and the filtered velocity of the
    record are the number of that line: whatever [VEL:] lines the frame
    holds, the velocity they report is lost. *)
Theorem boundary_report_sets_both (frame : list string) (line g : string)
    (target_flow : pyfloat) (t : datetime) (row : list cell) (f : pyfloat) :
  FVEL_at line = Some g ->
  parse_block (frame ++ [line]) target_flow = Returned (Some (t, row, f)) ->
  exists x,
    py_float g = Returned x
    /\ nth_error row 6 = Some (CFloat x) /\ nth_error row 7 = Some (CFloat x).
Proof.
  intros Hg Hp. destruct (FVEL_at_both _ _ Hg) as [HF HV].
  destruct (proj2 (order_and_last_readings source_order (frame ++ [line]) target_flow
                     source_order_is_order) t row f Hp)
    as (u & d & n & x & y & _ & _ & _ & Lx & Ly & ->).
  unfold last_reading in Lx, Ly.
  rewrite last_matching_snoc in Lx by (simpl; rewrite HV; reflexivity).
  rewrite last_matching_snoc in Ly by (simpl; rewrite HF; reflexivity).
  cbn [obind reads] in Lx, Ly. rewrite HV in Lx. rewrite HF in Ly.
  simpl in Lx, Ly.
  destruct (py_float g) as [e|z]; simpl in Lx, Ly; [discriminate|].
  inversion Lx; inversion Ly; subst. exists y. repeat split.
Qed.

(** An instance of X7: Scenario A, whose velocity line reports 0.44. *)
Lemma boundary_report_sets_both_witness :
  exists x,
    py_float "0.41" = Returned x
    /\ repr_float x = "0.41"
    /\ In "VEL: 0.44" scenario_A.
Proof.
  assert (P : exists row f,
             parse_block (["01-01-24 12:00:00"; "UP:10.2,DN:9.8,Q=3"; "FLOW: 1.523";
                           "VEL: 0.44"] ++ ["FVEL: 0.41"]) target_1_5
             = Returned (Some (noon, row, f))).
  { eexists. eexists. vm_compute. reflexivity. }
  destruct P as (row & f & P).
  destruct (boundary_report_sets_both _ "FVEL: 0.41" "0.41" target_1_5 noon row f
              eq_refl P) as (x & Hx & _ & _).
  exists x. split; [exact Hx|]. split.
  - vm_compute in Hx. inversion Hx. vm_compute. reflexivity.
  - simpl. tauto.
Defined.

(** ** A malformed line *)

Lemma malformed_app frame more :
  malformed (frame ++ more) = malformed frame || malformed more.
Proof. unfold malformed. apply existsb_app. Qed.

(** X8: a line with a match that cannot be converted is fatal once it is in
    the buffer: whatever lines follow it, at the next boundary line
    [parse_block] raises and the [ValueError] leaves the loop, nothing is
    written or pushed and the buffer is left with the frame. *)
Theorem malformed_line_is_fatal (target_flow : pyfloat) (raw : string) (s : session) :
  malformed (buffer s) = true ->
  nonblank raw = true ->
  startswith "FVEL" (strip raw) = true ->
  iteration target_flow raw s
  = (mkSession (buffer s ++ [strip raw]) (csv_file s) (flow_values s) (time_values s),
     Some ValueError).
Proof.
  unfold nonblank. intros Hm Hnb Hb.
  destruct (is_empty (strip raw)) eqn:E; [discriminate|].
  unfold iteration. rewrite E, Hb. cbn [buffer csv_file flow_values time_values].
  pose proof (shape_of_parse_block (buffer s ++ [strip raw]) target_flow) as H.
  rewrite malformed_app, Hm in H. simpl in H.
  destruct (parse_block (buffer s ++ [strip raw]) target_flow) as [e|[r|]];
    simpl in H; try discriminate.
  rewrite (exn_unique e). reflexivity.
Qed.

(** An instance of X8: a complete frame that also holds a flow with two
    dots. *)
Lemma malformed_line_is_fatal_witness :
  iteration target_1_5 "FVEL: 0.41"
    (mkSession ["FLOW: 1.2.3"; "01-01-24 12:00:00"; "UP:10.2,DN:9.8,Q=3"; "FLOW: 1.523"]
       header_line [] [])
  = (mkSession ["FLOW: 1.2.3"; "01-01-24 12:00:00"; "UP:10.2,DN:9.8,Q=3"; "FLOW: 1.523";
                "FVEL: 0.41"] header_line [] [],
     Some ValueError).
Proof.
  apply (malformed_line_is_fatal target_1_5 "FVEL: 0.41"
           (mkSession ["FLOW: 1.2.3"; "01-01-24 12:00:00"; "UP:10.2,DN:9.8,Q=3";
                       "FLOW: 1.523"] header_line [] []));
    vm_compute; reflexivity.
Defined.

(** ** The lengths of the shared lists *)

(** X9: the logger appends the flow before the timestamp, so under every
    interleaving [flow_values] is as long as [time_values] when the logger
    is between two pushes and one longer when it is inside one; it is never
    shorter and never longer by more. *)
Theorem flow_values_at_most_one_ahead (pushes : list (datetime * pyfloat))
    (schedule : list action) :
  List.length (w_flow (run schedule (init_world pushes)))
  = match w_half (run schedule (init_world pushes)) with
    | None => List.length (w_time (run schedule (init_world pushes)))
    | Some _ => S (List.length (w_time (run schedule (init_world pushes))))
    end.
Proof.
  assert (H0 : List.length (w_flow (init_world pushes))
               = match w_half (init_world pushes) with
                 | None => List.length (w_time (init_world pushes))
                 | Some _ => S (List.length (w_time (init_world pushes)))
                 end) by reflexivity.
  revert H0. generalize (init_world pushes) as w.
  induction schedule as [|a schedule IH]; intros w H; [exact H|].
  apply IH. destruct a; unfold act.
  - destruct (w_half w) as [t|] eqn:Hh.
    + cbn [w_flow w_time w_half]. rewrite length_app. simpl. lia.
    + destruct (w_todo w) as [|[t f] todo].
      * rewrite Hh. exact H.
      * cbn [w_flow w_time w_half]. rewrite length_app. simpl. lia.
  - exact H.
  - exact H.
Qed.

(** ** Timestamps *)

Lemma char_if_in p s c r : In (c, r) (char_if p s) -> p c = true.
Proof.
  unfold char_if. destruct s as [|c' s']; [intros []|].
  destruct (p c') eqn:E; [|intros []].
  intros [H|[]]. inversion H; subst. exact E.
Qed.

Lemma between_range lo hi c : between lo hi c = true -> lo <= digit_val c <= hi.
Proof.
  unfold between. intros H.
  apply andb_true_iff in H. destruct H as [H H2].
  apply andb_true_iff in H. destruct H as [_ H1].
  apply Z.leb_le in H1. apply Z.leb_le in H2. lia.
Qed.

Lemma two_range lo1 hi1 lo2 hi2 s v r :
  In (v, r) (two lo1 hi1 lo2 hi2 s) -> 10 * lo1 + lo2 <= v <= 10 * hi1 + hi2.
Proof.
  unfold two, andthen. intros H.
  apply in_flat_map in H. destruct H as ([a r1] & Ha & H).
  apply in_flat_map in H. destruct H as ([b r2] & Hb & H).
  destruct H as [H|[]]. pose proof (f_equal fst H) as Hv. cbn [fst] in Hv. subst v.
  apply char_if_in, between_range in Ha. apply char_if_in, between_range in Hb. lia.
Qed.

Lemma one_range lo hi s v r : In (v, r) (one lo hi s) -> lo <= v <= hi.
Proof.
  unfold one, andthen. intros H.
  apply in_flat_map in H. destruct H as ([a r1] & Ha & H).
  destruct H as [H|[]]. inversion H; subst.
  apply char_if_in, between_range in Ha. exact Ha.
Qed.

Lemma directive_d_range s v r : In (v, r) (directive_d s) -> 1 <= v <= 31.
Proof.
  unfold directive_d, alt. intros H.
  repeat (apply in_app_or in H; destruct H as [H|H]);
    try (apply two_range in H; lia); try (apply one_range in H; lia).
  unfold andthen in H. apply in_flat_map in H. destruct H as ([u r1] & _ & H).
  apply one_range in H. lia.
Qed.

Lemma directive_m_range s v r : In (v, r) (directive_m s) -> 1 <= v <= 12.
Proof.
  unfold directive_m, alt. intros H.
  repeat (apply in_app_or in H; destruct H as [H|H]);
    try (apply two_range in H; lia); try (apply one_range in H; lia).
Qed.

Lemma directive_y_range s v r : In (v, r) (directive_y s) -> 0 <= v <= 99.
Proof. unfold directive_y. intros H. apply two_range in H. lia. Qed.

Lemma directive_H_range s v r : In (v, r) (directive_H s) -> 0 <= v <= 23.
Proof.
  unfold directive_H, alt. intros H.
  repeat (apply in_app_or in H; destruct H as [H|H]);
    try (apply two_range in H; lia); try (apply one_range in H; lia).
Qed.

Lemma directive_M_range s v r : In (v, r) (directive_M s) -> 0 <= v <= 59.
Proof.
  unfold directive_M, alt. intros H.
  repeat (apply in_app_or in H; destruct H as [H|H]);
    try (apply two_range in H; lia); try (apply one_range in H; lia).
Qed.

Lemma directive_S_range s v r : In (v, r) (directive_S s) -> 0 <= v <= 61.
Proof.
  unfold directive_S, alt. intros H.
  repeat (apply in_app_or in H; destruct H as [H|H]);
    try (apply two_range in H; lia); try (apply one_range in H; lia).
Qed.

Lemma format_regex_range s d m y hh mi ss r :
  In ((d, m, y, hh, mi, ss), r) (format_regex s) ->
  1 <= d <= 31 /\ 1 <= m <= 12 /\ 0 <= y <= 99
  /\ 0 <= hh <= 23 /\ 0 <= mi <= 59 /\ 0 <= ss <= 61.
Proof.
  unfold format_regex, andthen. intros H.
  apply in_flat_map in H. destruct H as ([d' r1] & Hd & H).
  apply in_flat_map in H. destruct H as ([u1 r2] & _ & H).
  apply in_flat_map in H. destruct H as ([m' r3] & Hm & H).
  apply in_flat_map in H. destruct H as ([u2 r4] & _ & H).
  apply in_flat_map in H. destruct H as ([y' r5] & Hy & H).
  apply in_flat_map in H. destruct H as ([u3 r6] & _ & H).
  apply in_flat_map in H. destruct H as ([hh' r7] & Hh & H).
  apply in_flat_map in H. destruct H as ([u4 r8] & _ & H).
  apply in_flat_map in H. destruct H as ([mi' r9] & Hmi & H).
  apply in_flat_map in H. destruct H as ([u5 r10] & _ & H).
  apply in_flat_map in H. destruct H as ([ss' r11] & Hss & H).
  destruct H as [H|[]]. inversion H; subst.
  apply directive_d_range in Hd. apply directive_m_range in Hm.
  apply directive_y_range in Hy. apply directive_H_range in Hh.
  apply directive_M_range in Hmi. apply directive_S_range in Hss.
  repeat split; lia.
Qed.

Lemma strptime_in_range line t : strptime line = Returned t -> in_range t.
Proof.
  unfold strptime.
  destruct (format_regex line) as [|[[[[[[d m] y] hh] mi] ss] r] rest] eqn:E;
    [discriminate|].
  destruct r; [|discriminate].
  assert (Hin : In ((d, m, y, hh, mi, ss), "") (format_regex line))
    by (rewrite E; left; reflexivity).
  apply format_regex_range in Hin. cbv zeta.
  assert (Hy : exists yy, (if y <=? 68 then 2000 + y else 1900 + y) = yy
                          /\ 1969 <= yy <= 2068).
  { eexists. split; [reflexivity|].
    destruct (y <=? 68) eqn:Y; [apply Z.leb_le in Y|apply Z.leb_gt in Y]; lia. }
  destruct Hy as (yy & -> & Hyy).
  destruct ((d <=? days_in_month yy m) && (ss <=? 59)) eqn:C; [|discriminate].
  apply andb_true_iff in C. destruct C as [C1 C2].
  apply Z.leb_le in C1. apply Z.leb_le in C2.
  intros H. injection H as Ht. subst t.
  unfold in_range. cbn [year month day hour minute second].
  repeat split; lia.
Qed.

(** X10: the timestamp of every record is a date of the calendar and a
    time of day, in the years 1969 to 2068: the two-digit year the device
    sends is read as 20yy up to 68 and as 19yy from 69. *)
Theorem record_timestamp_in_range (frame : list string) (target_flow : pyfloat)
    (t : datetime) (row : list cell) (f : pyfloat) :
  parse_block frame target_flow = Returned (Some (t, row, f)) -> in_range t.
Proof.
  intros H.
  destruct (proj2 (order_and_last_readings source_order frame target_flow
                     source_order_is_order) t row f H)
    as (u & d & n & x & y & Lt & _).
  unfold last_reading in Lt.
  destruct (last_matching (matches KTimestamp) frame) as [l|]; [|discriminate].
  cbn [obind reads] in Lt.
  destruct (date_prefix l); [|discriminate].
  destruct (strptime l) as [e|t'] eqn:E; simpl in Lt; [discriminate|].
  inversion Lt; subst. exact (strptime_in_range _ _ E).
Qed.

(** An instance of X10: a frame whose timestamp line has the year 69. *)
Lemma record_timestamp_in_range_witness :
  exists t, strptime "31-12-69 23:59:59" = Returned t /\ year t = 1969 /\ in_range t.
Proof.
  assert (P : exists t row f,
             parse_block ["31-12-69 23:59:59"; "UP:10.2,DN:9.8,Q=3"; "FLOW: 1.523";
                          "FVEL: 0.41"] target_1_5 = Returned (Some (t, row, f))
             /\ strptime "31-12-69 23:59:59" = Returned t /\ year t = 1969).
  { eexists. eexists. eexists. split; [vm_compute; reflexivity|].
    split; vm_compute; reflexivity. }
  destruct P as (t & row & f & P & Hs & Hy).
  exists t. split; [exact Hs|]. split; [exact Hy|].
  exact (record_timestamp_in_range _ target_1_5 t row f P).
Defined.

Lemma digit_char_inj a b : digit_char a = digit_char b -> a mod 10 = b mod 10.
Proof.
  unfold digit_char. intros H.
  pose proof (Z.mod_pos_bound a 10 eq_refl) as Ha.
  pose proof (Z.mod_pos_bound b 10 eq_refl) as Hb.
  apply (f_equal nat_of_ascii) in H.
  rewrite !nat_ascii_embedding in H by lia. lia.
Qed.

Lemma pad2_inj a b : 0 <= a <= 99 -> 0 <= b <= 99 -> pad2 a = pad2 b -> a = b.
Proof.
  unfold pad2. intros Ha Hb H. inversion H as [[H1 H2]].
  apply digit_char_inj in H1. apply digit_char_inj in H2.
  Z.div_mod_to_equations. lia.
Qed.

(** X11: the text [strftime] writes loses nothing of what [strptime] read:
    two timestamps read from lines of the device that are written as the
    same text are the same timestamp. *)
Theorem timestamp_text_injective (line1 line2 : string) (t1 t2 : datetime) :
  strptime line1 = Returned t1 ->
  strptime line2 = Returned t2 ->
  strftime t1 = strftime t2 ->
  t1 = t2.
Proof.
  intros H1 H2 E.
  apply strptime_in_range in H1. apply strptime_in_range in H2.
  destruct H1 as (Y1 & M1 & D1 & h1 & m1 & s1).
  destruct H2 as (Y2 & M2 & D2 & h2 & m2 & s2).
  assert (D1' : day t1 <= 31).
  { destruct D1 as [_ D1]. unfold days_in_month in D1.
    destruct (month t1 =? 2); [destruct (is_leap (year t1))|];
      [lia|lia|]. destruct ((month t1 =? 4) || (month t1 =? 6) || (month t1 =? 9)
                            || (month t1 =? 11)); lia. }
  assert (D2' : day t2 <= 31).
  { destruct D2 as [_ D2]. unfold days_in_month in D2.
    destruct (month t2 =? 2); [destruct (is_leap (year t2))|];
      [lia|lia|]. destruct ((month t2 =? 4) || (month t2 =? 6) || (month t2 =? 9)
                            || (month t2 =? 11)); lia. }
  destruct t1 as [y1 mo1 d1 hh1 mi1 ss1], t2 as [y2 mo2 d2 hh2 mi2 ss2].
  cbn [year month day hour minute second] in *.
  unfold strftime, pad4 in E. cbn [year month day hour minute second append] in E.
  inversion E as [[Ea Eb Ec Ed Ee Ef Eg Eh Ei Ej Ek El Em En]].
  assert (Ey : y1 = y2).
  { apply digit_char_inj in Ea, Eb, Ec, Ed. Z.div_mod_to_equations. lia. }
  assert (Emo : mo1 = mo2) by (apply pad2_inj; [lia|lia|unfold pad2; congruence]).
  assert (Edd : d1 = d2) by (apply pad2_inj; [lia|lia|unfold pad2; congruence]).
  assert (Ehh : hh1 = hh2) by (apply pad2_inj; [lia|lia|unfold pad2; congruence]).
  assert (Emi : mi1 = mi2) by (apply pad2_inj; [lia|lia|unfold pad2; congruence]).
  assert (Ess : ss1 = ss2) by (apply pad2_inj; [lia|lia|unfold pad2; congruence]).
  subst. reflexivity.
Qed.

(** An instance of X11: two spellings of noon. *)
Lemma timestamp_text_injective_witness :
  strptime "01-01-24 12:00:00" = strptime "01-01-24   12:00:00".
Proof.
  assert (P : exists t1 t2,
             strptime "01-01-24 12:00:00" = Returned t1
             /\ strptime "01-01-24   12:00:00" = Returned t2
             /\ strftime t1 = strftime t2).
  { eexists. eexists. split; [vm_compute; reflexivity|].
    split; vm_compute; reflexivity. }
  destruct P as (t1 & t2 & H1 & H2 & E).
  rewrite H1, H2. f_equal.
  exact (timestamp_text_injective _ _ t1 t2 H1 H2 E).
Defined.

(** ** The written line *)

Lemma all_chars_app p a b : all_chars p (a ++ b) = all_chars p a && all_chars p b.
Proof.
  induction a as [|c a IH]; [reflexivity|]. simpl. rewrite IH. apply andb_assoc.
Qed.

Lemma all_chars_imp (p p' : ascii -> bool) s :
  (forall c, p c = true -> p' c = true) -> all_chars p s = true -> all_chars p' s = true.
Proof.
  intros Himp. induction s as [|c s IH]; [reflexivity|]. simpl.
  intros H. apply andb_true_iff in H. destruct H as [Hc Hs].
  rewrite (Himp c Hc), (IH Hs). reflexivity.
Qed.

Lemma all_chars_substring p n m s :
  all_chars p s = true -> all_chars p (substring n m s) = true.
Proof.
  revert n m. induction s as [|c s IH]; intros n m H.
  - destruct n, m; reflexivity.
  - simpl in H. apply andb_true_iff in H. destruct H as [Hc Hs].
    destruct n as [|n]; simpl.
    + destruct m as [|m]; [reflexivity|]. simpl. rewrite Hc. apply IH. exact Hs.
    + apply IH. exact Hs.
Qed.

Lemma digit_is_plain c : is_digit c = true -> plain c = true.
Proof.
  unfold is_digit, plain. intros H.
  apply andb_true_iff in H. destruct H as [H1 H2].
  apply Z.leb_le in H1. apply Z.leb_le in H2.
  destruct (code c =? 44) eqn:E1; [apply Z.eqb_eq in E1; lia|].
  destruct (code c =? 34) eqn:E2; [apply Z.eqb_eq in E2; lia|].
  destruct (code c =? 13) eqn:E3; [apply Z.eqb_eq in E3; lia|].
  destruct (code c =? 10) eqn:E4; [apply Z.eqb_eq in E4; lia|].
  reflexivity.
Qed.

Lemma uint_text_digits d : all_chars is_digit (NilEmpty.string_of_uint d) = true.
Proof. induction d; simpl; auto. Qed.

Lemma str_nat_plain n : all_chars plain (str_nat n) = true.
Proof.
  unfold str_nat, NilZero.string_of_uint.
  destruct (N.to_uint (Z.to_N n)) eqn:E; try reflexivity;
    rewrite <- E; apply (all_chars_imp is_digit); auto using digit_is_plain, uint_text_digits.
Qed.

Lemma str_int_plain n : all_chars plain (str_int n) = true.
Proof.
  unfold str_int, NilZero.string_of_int.
  assert (U : forall d, all_chars plain (NilZero.string_of_uint d) = true).
  { intros d. unfold NilZero.string_of_uint.
    destruct d eqn:E; try reflexivity;
      rewrite <- E; apply (all_chars_imp is_digit);
      auto using digit_is_plain, uint_text_digits. }
  destruct (Z.to_int n) as [d|d]; [apply U|].
  change (all_chars plain (String "-" (NilZero.string_of_uint d)) = true).
  simpl. apply U.
Qed.

Lemma zeros_plain n : all_chars plain (zeros n) = true.
Proof. induction n as [|n IH]; [reflexivity|]. simpl. exact IH. Qed.

Lemma layout_plain digits p :
  all_chars plain digits = true -> all_chars plain (layout digits p) = true.
Proof.
  intros H. unfold layout.
  destruct ((p <=? -4) || (16 <? p)).
  - rewrite !all_chars_app, str_nat_plain.
    destruct (p - 1 <? 0), (Z.abs (p - 1) <? 10); simpl;
      rewrite ?andb_true_r; (destruct digits as [|c [|c' rest]];
        [reflexivity | exact H |
         simpl in H |- *; apply andb_true_iff in H; destruct H as [-> H]; exact H]).
  - destruct (p <=? 0).
    + rewrite !all_chars_app, zeros_plain, H. reflexivity.
    + destruct (p <? Z.of_nat (String.length digits)).
      * rewrite !all_chars_app, !all_chars_substring by exact H. reflexivity.
      * rewrite !all_chars_app, zeros_plain, H. reflexivity.
Qed.

Lemma repr_float_plain x : all_chars plain (repr_float x) = true.
Proof.
  destruct x as [|neg|neg m e].
  - reflexivity.
  - destruct neg; reflexivity.
  - unfold repr_float. rewrite all_chars_app. apply andb_true_iff.
    split; [destruct neg; reflexivity|].
    destruct (m =? 0); [reflexivity|]. cbv zeta.
    destruct (shortest 16 (Ffin false m e) (m * 2 ^ Z.max 0 e) (2 ^ Z.max 0 (- e))
                (decpt (m * 2 ^ Z.max 0 e) (2 ^ Z.max 0 (- e))) 1) as [[D p] k].
    apply layout_plain, str_nat_plain.
Qed.

Lemma digit_char_plain d : plain (digit_char d) = true.
Proof. apply digit_is_plain, digit_char_is_digit. Qed.

Lemma strftime_plain t : all_chars plain (strftime t) = true.
Proof.
  unfold strftime, pad4, pad2. cbn [append all_chars].
  rewrite !digit_char_plain. reflexivity.
Qed.

Lemma commas_app a b : commas (a ++ b) = (commas a + commas b)%nat.
Proof. induction a as [|c a IH]; [reflexivity|]. simpl. rewrite IH. lia. Qed.

Lemma plain_no_comma s : all_chars plain s = true -> commas s = 0%nat.
Proof.
  induction s as [|c s IH]; [reflexivity|]. simpl. intros H.
  apply andb_true_iff in H. destruct H as [Hc Hs]. rewrite (IH Hs).
  unfold plain in Hc. destruct (code c =? 44); [discriminate|]. reflexivity.
Qed.

(** X12: the line written for a record needs no quoting and reads back as
    eight columns: none of its eight fields holds a comma, a quote or a
    line break, whatever the target and the readings, and the line has
    seven commas. *)
Theorem written_line_has_eight_columns (frame : list string) (target_flow : pyfloat)
    (t : datetime) (row : list cell) (f : pyfloat) :
  parse_block frame target_flow = Returned (Some (t, row, f)) ->
  List.length row = 8%nat
  /\ Forall (fun c => all_chars plain (cell_text c) = true) row
  /\ commas (row_text row) = 7%nat.
Proof.
  intros H. destruct (parse_block_row _ _ _ _ _ H) as (u & d & n & x & y & ->).
  assert (P : Forall (fun c => all_chars plain (cell_text c) = true)
                [CStr (strftime t); CFloat target_flow; CFloat u; CFloat d; CInt n;
                 CFloat f; CFloat x; CFloat y]).
  { repeat constructor; cbn [cell_text];
      auto using strftime_plain, repr_float_plain, str_int_plain. }
  split; [reflexivity|]. split; [exact P|].
  unfold row_text. cbn [map String.concat cell_text].
  rewrite !commas_app.
  rewrite (plain_no_comma _ (strftime_plain t)), (plain_no_comma _ (str_int_plain n)),
    !(plain_no_comma _ (repr_float_plain _)).
  reflexivity.
Qed.

(** An instance of X12: the record of Scenario A. *)
Lemma written_line_has_eight_columns_witness :
  exists row,
    row_text row = "2024-01-01 12:00:00,1.5,10.2,9.8,3,1.523,0.41,0.41"
    /\ commas (row_text row) = 7%nat.
Proof.
  assert (P : exists row f,
             parse_block scenario_A target_1_5 = Returned (Some (noon, row, f))
             /\ row_text row = "2024-01-01 12:00:00,1.5,10.2,9.8,3,1.523,0.41,0.41").
  { eexists. eexists. split; [vm_compute; reflexivity | vm_compute; reflexivity]. }
  destruct P as (row & f & P & Htext).
  exists row. split; [exact Htext|].
  exact (proj2 (proj2 (written_line_has_eight_columns scenario_A target_1_5 noon row f P))).
Defined.

(** ** Any number of sessions *)

Lemma sessions_append runs content :
  exists rowss,
    sessions runs (Some content)
    = Some (content ++ String.concat "" (map rows_text rowss))
    /\ Forall2 (fun run rows => Forall (data_row (fst run)) rows) runs rowss.
Proof.
  revert content. induction runs as [|[target_flow reads] runs IH]; intros content.
  - exists []. simpl. rewrite string_app_nil_r. split; [reflexivity|constructor].
  - cbn [sessions]. unfold log_data.
    destruct (loop_appends target_flow reads (start (Some content) [] []))
      as (rows & Hc & Hr & _).
    rewrite Hc. cbn [start csv_file init_csv negb].
    destruct (IH (content ++ rows_text rows)) as (rowss & Hs & Hf).
    exists (rows :: rowss). split; [|constructor; assumption].
    rewrite Hs. f_equal. rewrite string_app_assoc. f_equal.
    cbn [map String.concat]. destruct rowss as [|r rowss'].
    + simpl. rewrite string_app_nil_r. reflexivity.
    + reflexivity.
Qed.

(** X13: however many sessions [main] runs on a file that did not exist,
    and whether or not an exception ended some of them, the file is the
    header, written once by the first session, followed session after
    session by the rows of that session, each a row of a complete record
    with the target of its session; no row is a header. *)
Theorem header_once_over_sessions (target_flow : pyfloat) (reads : list string)
    (runs : list (pyfloat * list string)) :
  exists rowss,
    sessions ((target_flow, reads) :: runs) None
    = Some (header_line ++ String.concat "" (map rows_text rowss))
    /\ Forall2 (fun run rows => Forall (data_row (fst run)) rows)
         ((target_flow, reads) :: runs) rowss
    /\ Forall (Forall (fun row => row_text row ++ CRLF <> header_line)) rowss.
Proof.
  cbn [sessions]. unfold log_data.
  destruct (loop_appends target_flow reads (start None [] [])) as (rows & Hc & Hr & _).
  rewrite Hc. change (csv_file (start None [] [])) with header_line.
  destruct (sessions_append runs (header_line ++ rows_text rows)) as (rowss & Hs & Hf).
  exists (rows :: rowss). split; [|split].
  - rewrite Hs. f_equal. rewrite string_app_assoc. f_equal.
    cbn [map String.concat]. destruct rowss as [|r rowss'].
    + simpl. rewrite string_app_nil_r. reflexivity.
    + reflexivity.
  - constructor; assumption.
  - assert (F : Forall2 (fun run rows => Forall (data_row (fst run)) rows)
                  ((target_flow, reads) :: runs) (rows :: rowss))
      by (constructor; assumption).
    clear - F. induction F as [|run rows' runs' rowss' Hrows _ IH]; constructor; [|exact IH].
    eapply Forall_impl; [|exact Hrows]. intros row. apply data_row_not_header.
Qed.

(** ** Lines that match nothing, and timestamp lines *)

Lemma scan_lines_app order a b v :
  scan_lines order (a ++ b) v = (v' <- scan_lines order a v ;; scan_lines order b v').
Proof.
  revert v. induction a as [|line a IH]; intros v; [reflexivity|].
  cbn [app scan_lines]. destruct (scan_line_in order line v) as [e|v1]; [reflexivity|].
  cbn [bind]. apply IH.
Qed.

Lemma scan_line_in_noise order line v :
  (forall k, matches k line = false) -> scan_line_in order line v = Returned v.
Proof.
  intros H. induction order as [|k order IH]; [reflexivity|].
  cbn [scan_line_in]. pose proof (rule_reads k line v) as R.
  specialize (H k). rewrite matches_reads in H.
  destruct (reads k line) as [o|]; [discriminate|]. rewrite R. exact IH.
Qed.

(** X14: a line that none of the five patterns matches changes nothing:
    with it or without it, wherever it stands in the frame, [parse_block]
    gives the same result. *)
Theorem unmatched_line_ignored (pre post : list string) (line : string)
    (target_flow : pyfloat) :
  (forall k, matches k line = false) ->
  parse_block (pre ++ line :: post) target_flow = parse_block (pre ++ post) target_flow.
Proof.
  intros H. unfold parse_block, parse_block_in. rewrite !scan_lines_app.
  destruct (scan_lines source_order pre unset) as [e|v]; [reflexivity|].
  cbn [bind scan_lines]. rewrite (scan_line_in_noise source_order line v H). reflexivity.
Qed.

(** An instance of X14: a line of device chatter inside Scenario A. *)
Lemma unmatched_line_ignored_witness :
  parse_block (["01-01-24 12:00:00"; "UP:10.2,DN:9.8,Q=3"]
               ++ "TEMP: 21.5 C" :: ["FLOW: 1.523"; "VEL: 0.44"; "FVEL: 0.41"]) target_1_5
  = parse_block scenario_A target_1_5.
Proof.
  apply (unmatched_line_ignored ["01-01-24 12:00:00"; "UP:10.2,DN:9.8,Q=3"]
           ["FLOW: 1.523"; "VEL: 0.44"; "FVEL: 0.41"] "TEMP: 21.5 C" target_1_5).
  intros []; reflexivity.
Defined.

Lemma consumes_char_if p :
  (forall c, p c = true -> stamp_char c = true) -> consumes (char_if p).
Proof.
  intros Hp s v r H. unfold char_if in H.
  destruct s as [|c s']; [destruct H|].
  destruct (p c) eqn:E; [|destruct H].
  destruct H as [H|[]]. inversion H; subst.
  exists (String v ""). split; [reflexivity|]. simpl. rewrite (Hp v E). reflexivity.
Qed.

Lemma consumes_andthen (A B : Type) (p : matcher A) (f : A -> matcher B) :
  consumes p -> (forall a, consumes (f a)) -> consumes (andthen p f).
Proof.
  intros Hp Hf s v r H. unfold andthen in H.
  apply in_flat_map in H. destruct H as ([a r1] & Ha & H).
  destruct (Hp s a r1 Ha) as (pre1 & -> & H1).
  destruct (Hf a r1 v r H) as (pre2 & -> & H2).
  exists (pre1 ++ pre2). split; [symmetry; apply string_app_assoc|].
  rewrite all_chars_app, H1, H2. reflexivity.
Qed.

Lemma consumes_alt (A : Type) (p p' : matcher A) :
  consumes p -> consumes p' -> consumes (alt p p').
Proof.
  intros Hp Hp' s v r H. unfold alt in H.
  apply in_app_or in H. destruct H as [H|H]; [exact (Hp s v r H)|exact (Hp' s v r H)].
Qed.

Lemma consumes_ret (A : Type) (v : A) : consumes (fun r => [(v, r)]).
Proof.
  intros s v' r H. destruct H as [H|[]]. inversion H; subst.
  exists "". split; reflexivity.
Qed.

Lemma between_stamp lo hi c : between lo hi c = true -> stamp_char c = true.
Proof.
  unfold between, stamp_char. intros H.
  apply andb_true_iff in H. destruct H as [H _].
  apply andb_true_iff in H. destruct H as [H _]. rewrite H. reflexivity.
Qed.

Lemma consumes_two a b c d : consumes (two a b c d).
Proof.
  unfold two. apply consumes_andthen; [apply consumes_char_if, between_stamp|].
  intros x. apply consumes_andthen; [apply consumes_char_if, between_stamp|].
  intros y. apply consumes_ret.
Qed.

Lemma consumes_one a b : consumes (one a b).
Proof.
  unfold one. apply consumes_andthen; [apply consumes_char_if, between_stamp|].
  intros x. apply consumes_ret.
Qed.

Lemma consumes_skip_eqb (x : ascii) :
  stamp_char x = true -> consumes (skip (Ascii.eqb x)).
Proof.
  intros Hx. unfold skip. apply consumes_andthen; [|intros; apply consumes_ret].
  apply consumes_char_if. intros c E. apply Ascii.eqb_eq in E. subst c. exact Hx.
Qed.

Lemma span_app p s : s = fst (span p s) ++ snd (span p s).
Proof.
  induction s as [|c s IH]; [reflexivity|]. simpl.
  destruct (p c); [|reflexivity].
  destruct (span p s) as [a r]. simpl in *. f_equal. exact IH.
Qed.

Lemma consumes_blanks : consumes blanks.
Proof.
  intros s v r H. unfold blanks, plus in H.
  pose proof (span_app is_space s) as Happ. pose proof (span_all is_space s) as Hall.
  destruct (span is_space s) as [[|c a] r']; [destruct H|].
  destruct H as [H|[]]. inversion H; subst.
  exists (String c a). split; [reflexivity|].
  apply (all_chars_imp is_space); [|exact Hall].
  intros x Hx. unfold stamp_char. rewrite Hx. destruct (is_digit x); reflexivity.
Qed.

Lemma consumes_directives :
  consumes directive_d /\ consumes directive_m /\ consumes directive_y
  /\ consumes directive_H /\ consumes directive_M /\ consumes directive_S
  /\ consumes dash /\ consumes colon.
Proof.
  unfold directive_d, directive_m, directive_y, directive_H, directive_M, directive_S,
    dash, colon.
  repeat split;
    repeat apply consumes_alt;
    try apply consumes_two; try apply consumes_one;
    try (apply consumes_skip_eqb; reflexivity).
  apply consumes_andthen; [apply consumes_skip_eqb; reflexivity|].
  intros _. apply consumes_one.
Qed.

Lemma consumes_format_regex : consumes format_regex.
Proof.
  destruct consumes_directives as (Cd & Cm & Cy & CH & CM & CS & Cdash & Ccolon).
  unfold format_regex.
  apply consumes_andthen; [exact Cd | intros d].
  apply consumes_andthen; [exact Cdash | intros _].
  apply consumes_andthen; [exact Cm | intros m].
  apply consumes_andthen; [exact Cdash | intros _].
  apply consumes_andthen; [exact Cy | intros y].
  apply consumes_andthen; [exact consumes_blanks | intros _].
  apply consumes_andthen; [exact CH | intros hh].
  apply consumes_andthen; [exact Ccolon | intros _].
  apply consumes_andthen; [exact CM | intros mi].
  apply consumes_andthen; [exact Ccolon | intros _].
  apply consumes_andthen; [exact CS | intros ss].
  apply consumes_ret.
Qed.

Lemma strptime_stamp_chars line t :
  strptime line = Returned t -> all_chars stamp_char line = true.
Proof.
  unfold strptime.
  destruct (format_regex line) as [|[[[[[[d m] y] hh] mi] ss] r] rest] eqn:E;
    [discriminate|].
  destruct r; [|discriminate]. intros _.
  assert (Hin : In ((d, m, y, hh, mi, ss), "") (format_regex line))
    by (rewrite E; left; reflexivity).
  destruct (consumes_format_regex line _ _ Hin) as (pre & Hl & Hpre).
  rewrite string_app_nil_r in Hl. subst pre. exact Hpre.
Qed.

Lemma search_none (A : Type) (f : string -> option A) s :
  (forall s', all_chars stamp_char s' = true -> f s' = None) ->
  all_chars stamp_char s = true -> search f s = None.
Proof.
  intros Hf. induction s as [|c s IH]; intros H.
  - simpl. rewrite (Hf "" H). reflexivity.
  - simpl. rewrite (Hf _ H). apply IH.
    simpl in H. apply andb_true_iff in H. apply H.
Qed.

Lemma lit_letter_none (x : ascii) (pat s : string) :
  stamp_char x = false -> all_chars stamp_char s = true -> lit (String x pat) s = None.
Proof.
  intros Hx H. destruct s as [|c s]; [reflexivity|]. simpl.
  destruct (Ascii.eqb x c) eqn:E; [|reflexivity].
  apply Ascii.eqb_eq in E. subst c. simpl in H. rewrite Hx in H. discriminate.
Qed.

(** X15: a line that [strptime] accepts is made of digits, blanks, dashes
    and colons, so none of the four reading patterns matches it: a line
    with the date prefix sets the timestamp and nothing else, or raises. *)
Theorem timestamp_line_sets_only_timestamp (line : string) (t : datetime) :
  strptime line = Returned t ->
  matches KUpDnQ line = false /\ matches KFlow line = false
  /\ matches KVel line = false /\ matches KFvel line = false.
Proof.
  intros H. apply strptime_stamp_chars in H.
  assert (K : forall key, stamp_char key = false ->
                forall pat, search (keyed_at (String key pat)) line = None).
  { intros key Hk pat. apply search_none; [|exact H].
    intros s' Hs'. unfold keyed_at. rewrite (lit_letter_none key pat s' Hk Hs').
    reflexivity. }
  cbn [matches]. unfold UP_DN_Q_RE, FLOW_RE, VEL_RE, FVEL_RE, FLOW_at, VEL_at, FVEL_at.
  rewrite !K by reflexivity.
  rewrite (search_none _ UP_DN_Q_at line); [repeat split|
    intros s' Hs'; unfold UP_DN_Q_at; rewrite (lit_letter_none "U" "P:" s' eq_refl Hs');
    reflexivity | exact H].
Qed.

(** An instance of X15: the timestamp line of Scenario A. *)
Lemma timestamp_line_sets_only_timestamp_witness :
  matches KTimestamp "01-01-24 12:00:00" = true
  /\ matches KFlow "01-01-24 12:00:00" = false.
Proof.
  split; [reflexivity|].
  assert (P : strptime "01-01-24 12:00:00" = Returned noon) by (vm_compute; reflexivity).
  exact (proj1 (proj2 (timestamp_line_sets_only_timestamp _ noon P))).
Defined.
